(** * Imbalance-ratio monitor: order-book store, imbalance engine and alert gates

    A shallow embedding of the Python sources

    - [binance_client.py]  ([BinanceWebSocketClient], [parse_orderbook_data]),
    - [imbalance_calculator.py] ([calculate_imbalance_ratio], [process_orderbook]),
    - [telegram_notifier.py] ([TelegramNotifier.send_notification]),
    - [main.py] ([ImbalanceMonitor._handle_orderbook_update]),

    followed by the properties of the specification that are checked
    against them.

    Python [float] is IEEE 754 binary64, which is what Rocq's primitive
    floats are, so every number of the program is a [float] here and every
    comparison is the IEEE one ([nan] compares false with everything, [-0]
    equals [0]).  Dictionaries keyed by symbol are [gmap string _];
    dictionaries keyed by a price are insertion-ordered association lists
    whose keys are compared with the float [==]. *)

From Stdlib Require Import Floats ZArith.
From stdpp Require Import gmap strings list.

Set Warnings "-inexact-float".

(** ** Python float operators *)

Module PyFloat.

Definition zero : float := 0%float.

(** [a == b] *)
Definition feq (a b : float) : bool := PrimFloat.eqb a b.
(** [a < b] *)
Definition flt (a b : float) : bool := PrimFloat.ltb a b.
(** [a <= b] *)
Definition fle (a b : float) : bool := PrimFloat.leb a b.
(** [a > b] *)
Definition fgt (a b : float) : bool := PrimFloat.ltb b a.
(** [a >= b] *)
Definition fge (a b : float) : bool := PrimFloat.leb b a.
(** [abs(a)] *)
Definition fabs (a : float) : float := PrimFloat.abs a.
Definition fadd (a b : float) : float := PrimFloat.add a b.
Definition fsub (a b : float) : float := PrimFloat.sub a b.
Definition fmul (a b : float) : float := PrimFloat.mul a b.
Definition fdiv (a b : float) : float := PrimFloat.div a b.

(** The textbook left-to-right summation starting from [0], the
    behaviour of the builtin [sum] on floats (recent CPython versions
    compensate the rounding error; the developments below are stated
    for an arbitrary summation function and use this one only to
    evaluate examples). *)
Definition fsum (l : list float) : float := fold_left fadd l zero.

End PyFloat.
Import PyFloat.

(** ** Python dictionaries with float keys

    [dict] keeps insertion order and finds a key by [==] (after hashing,
    which agrees with [==] on floats).  A [nan] key is never found again,
    since [nan == nan] is false and every [float(...)] call builds a fresh
    object. *)

Definition fdict : Type := list (float * float).

(** [k in d] / [d.get(k)] *)
Fixpoint dict_get (d : fdict) (k : float) : option float :=
  match d with
  | [] => None
  | (k', v') :: d' => if feq k' k then Some v' else dict_get d' k
  end.

(** [d[k] = v]: overwrite in place when the key is present, append
    otherwise. *)
Fixpoint dict_set (d : fdict) (k v : float) : fdict :=
  match d with
  | [] => [(k, v)]
  | (k', v') :: d' =>
      if feq k' k then (k', v) :: d' else (k', v') :: dict_set d' k v
  end.

(** [d.pop(k, None)]: remove the key when present, do nothing otherwise. *)
Fixpoint dict_pop (d : fdict) (k : float) : fdict :=
  match d with
  | [] => []
  | (k', v') :: d' => if feq k' k then d' else (k', v') :: dict_pop d' k
  end.

(** The values stored in a dictionary. *)
Definition dict_values (d : fdict) : list float := map snd d.

(** ** Wire data *)

(** One [[price, quantity]] entry as it arrives: two strings. *)
Definition level : Type := (string * string)%type.

(** The dictionary carried by a depth message, reduced to the four keys
    that [_update_orderbook] reads; [None] is an absent key. *)
Record update_data : Type := mk_update_data {
  u_bids : option (list level);
  u_b : option (list level);
  u_asks : option (list level);
  u_a : option (list level)
}.

(** The dictionary [{'symbol': .., 'bids': .., 'asks': ..}] exchanged
    between the client, the parser and the calculator. *)
Record orderbook_data : Type := mk_orderbook_data {
  od_symbol : string;
  od_bids : list level;
  od_asks : list level
}.

(** ** BinanceWebSocketClient *)

(** [self.orderbooks[symbol]]: [{'bids': {..}, 'asks': {..}}]. *)
Record orderbook : Type := mk_orderbook {
  ob_bids : fdict;
  ob_asks : fdict
}.

Record client : Type := mk_client {
  orderbooks : gmap string orderbook;
  last_sent_data : gmap string orderbook_data;
  last_sent_time : gmap string float;
  empty_update_warned : gset string
}.

(** State after [__init__]. *)
Definition client_init : client :=
  mk_client ∅ ∅ ∅ ∅.

Definition set_orderbooks (c : client) (obs : gmap string orderbook) : client :=
  mk_client obs (last_sent_data c) (last_sent_time c) (empty_update_warned c).

Section Client.

(** The builtin [float(s)] on a string: [None] stands for the
    [ValueError] it raises on text that is not a number. *)
Variable py_float : string → option float.

(** Body of one iteration of [for price, qty in bids_data] (and of the
    identical loop over asks): both conversions inside [try], an
    exception leaves the dictionary as it is. *)
Definition update_entry (d : fdict) (e : level) : fdict :=
  match py_float e.1 with
  | None => d
  | Some price_f =>
      match py_float e.2 with
      | None => d
      | Some qty_f =>
          if feq qty_f zero then dict_pop d price_f
          else dict_set d price_f qty_f
      end
  end.

Fixpoint update_side (d : fdict) (entries : list level) : fdict :=
  match entries with
  | [] => d
  | e :: rest => update_side (update_entry d e) rest
  end.

(** [update_data.get('bids', update_data.get('b', []))] *)
Definition bids_data_of (u : update_data) : list level :=
  default (default [] (u_b u)) (u_bids u).

Definition asks_data_of (u : update_data) : list level :=
  default (default [] (u_a u)) (u_asks u).

(** [_update_orderbook(self, symbol, update_data)] *)
Definition _update_orderbook (c : client) (symbol : string)
    (u : update_data) : client :=
  let obs :=
    match orderbooks c !! symbol with
    | None => <[symbol := mk_orderbook [] []]> (orderbooks c)
    | Some _ => orderbooks c
    end in
  let orderbook := default (mk_orderbook [] []) (obs !! symbol) in
  let bids_data := bids_data_of u in
  let asks_data := asks_data_of u in
  let warned :=
    if bool_decide (length bids_data = 0 ∧ length asks_data = 0)
    then {[symbol]} ∪ empty_update_warned c
    else empty_update_warned c in
  let bids' := update_side (ob_bids orderbook) bids_data in
  let asks' := update_side (ob_asks orderbook) asks_data in
  mk_client (<[symbol := mk_orderbook bids' asks']> obs)
            (last_sent_data c) (last_sent_time c) warned.

(** The dictionary comprehension
    [{float(price): float(qty) for price, qty in levels}]; [None] when a
    conversion raises (nothing catches it inside [start]). *)
Fixpoint dict_of_levels (acc : fdict) (levels : list level) : option fdict :=
  match levels with
  | [] => Some acc
  | e :: rest =>
      match py_float e.1 with
      | None => None
      | Some price_f =>
          match py_float e.2 with
          | None => None
          | Some qty_f => dict_of_levels (dict_set acc price_f qty_f) rest
          end
      end
  end.

(** One iteration of the first loop of [start]: [snapshot] is what
    [_get_initial_snapshot] returned ([None] after a failed request).
    The result is [None] when the iteration raises, and otherwise the
    new client state with the argument handed to
    [on_message_callback], if any. *)
Definition start_snapshot (c : client) (symbol : string)
    (snapshot : option orderbook_data)
    : option (client * option orderbook_data) :=
  match snapshot with
  | None => Some (c, None)
  | Some s =>
      match dict_of_levels [] (od_bids s) with
      | None => None
      | Some b =>
          match dict_of_levels [] (od_asks s) with
          | None => None
          | Some a =>
              Some (set_orderbooks c
                      (<[symbol := mk_orderbook b a]> (orderbooks c)),
                    Some (mk_orderbook_data symbol (od_bids s) (od_asks s)))
          end
      end
  end.

End Client.

(** *** The forwarding gate of [on_message]

    The block of [on_message] that follows the construction of
    [current_data]: decide whether the fresh top-of-book is handed to the
    callback, and record what was handed over. *)

(** [should_send] as computed by the gate. *)
Definition should_send (c : client) (symbol : string)
    (current_data : orderbook_data) (current_time : float) : bool :=
  let last_time := default zero (last_sent_time c !! symbol) in
  let time_since_last := fsub current_time last_time in
  match last_sent_data c !! symbol with
  | None => true
  | Some last_data =>
      (* [if last_data:] holds, the stored dictionary has three keys *)
      let last_top_bids := take 10 (od_bids last_data) in
      let last_top_asks := take 10 (od_asks last_data) in
      let current_top_bids := take 10 (od_bids current_data) in
      let current_top_asks := take 10 (od_asks current_data) in
      let changed :=
        bool_decide (last_top_bids ≠ current_top_bids)
        || bool_decide (last_top_asks ≠ current_top_asks) in
      if negb changed && fge time_since_last 5 then true else changed
  end.

(** The gate itself: the new client state and the argument of
    [on_message_callback] when it is called. *)
Definition forward_gate (c : client) (symbol : string)
    (current_data : orderbook_data) (current_time : float)
    : client * option orderbook_data :=
  if should_send c symbol current_data current_time then
    (mk_client (orderbooks c)
               (<[symbol := current_data]> (last_sent_data c))
               (<[symbol := current_time]> (last_sent_time c))
               (empty_update_warned c),
     Some current_data)
  else (c, None).

(** [parse_orderbook_data(data)] *)
Definition parse_orderbook_data (data : orderbook_data) : option orderbook_data :=
  if bool_decide (od_symbol data = "") || bool_decide (od_bids data = [])
     || bool_decide (od_asks data = [])
  then None
  else Some (mk_orderbook_data (od_symbol data) (od_bids data) (od_asks data)).

(** ** imbalance_calculator *)

(** The slice [l[:n]] for a Python integer [n]. *)
Definition py_slice_to {A : Type} (l : list A) (n : Z) : list A :=
  if (n <? 0)%Z then take (length l - Z.to_nat (- n)) l
  else take (Z.to_nat n) l.

(** [bids[:top_n] if len(bids) >= top_n else bids] *)
Definition top_levels (l : list level) (top_n : Z) : list level :=
  if (top_n <=? Z.of_nat (length l))%Z then py_slice_to l top_n else l.

(** What [process_orderbook] returns on success. *)
Record result : Type := mk_result {
  r_symbol : string;
  r_imbalance_ratio : float;
  r_bids_count : nat;
  r_asks_count : nat
}.

Section Calculator.

Variable py_float : string → option float.
(** The builtin [sum] on a list of floats. *)
Variable py_sum : list float → float.

(** The generator [float(price) * float(quantity) for price, quantity in
    levels], run to the end; [None] when a conversion raises. *)
Fixpoint notionals (levels : list level) : option (list float) :=
  match levels with
  | [] => Some []
  | e :: rest =>
      match py_float e.1 with
      | None => None
      | Some price =>
          match py_float e.2 with
          | None => None
          | Some quantity =>
              match notionals rest with
              | None => None
              | Some ns => Some (fmul price quantity :: ns)
              end
          end
      end
  end.

(** [calculate_imbalance_ratio(bids, asks, top_n)]; the [except] clause
    turns a raised conversion into [None]. *)
Definition calculate_imbalance_ratio (bids asks : list level) (top_n : Z)
    : option float :=
  let top_bids := top_levels bids top_n in
  let top_asks := top_levels asks top_n in
  match notionals top_bids with
  | None => None
  | Some bid_terms =>
      let bid_volume := py_sum bid_terms in
      match notionals top_asks with
      | None => None
      | Some ask_terms =>
          let ask_volume := py_sum ask_terms in
          let total_volume := fadd bid_volume ask_volume in
          if feq total_volume zero then None
          else Some (fdiv (fsub bid_volume ask_volume) total_volume)
      end
  end.

(** [process_orderbook(orderbook_data, top_n)] *)
Definition process_orderbook (data : orderbook_data) (top_n : Z)
    : option result :=
  if bool_decide (od_symbol data = "") || bool_decide (od_bids data = [])
     || bool_decide (od_asks data = [])
  then None
  else
    match calculate_imbalance_ratio (od_bids data) (od_asks data) top_n with
    | None => None
    | Some imbalance_ratio =>
        Some (mk_result (od_symbol data) imbalance_ratio
                (length (od_bids data)) (length (od_asks data)))
    end.

End Calculator.

(** ** TelegramNotifier *)

Module TelegramNotifier.

Record t : Type := mk {
  last_notification_time : gmap string float;
  last_notification_value : gmap string float
}.

(** State after [__init__]. *)
Definition init : t := mk ∅ ∅.

Definition notification_cooldown : float := 10%float.

(** [send_notification(self, symbol, imbalance_ratio)].  [current_time]
    is the reading of [time.time()] taken on entry and [success] the value
    of [loop.run_until_complete(self._send_message_async(message))],
    which is only consulted when neither guard returned early. *)
Definition send_notification (n : t) (symbol : string)
    (imbalance_ratio current_time : float) (success : bool) : bool * t :=
  let last_time := default zero (last_notification_time n !! symbol) in
  let last_value := last_notification_value n !! symbol in
  if flt (fsub current_time last_time) notification_cooldown then (false, n)
  else
    let same_value :=
      match last_value with
      | None => false
      | Some lv => flt (fabs (fsub imbalance_ratio lv)) 0.0005
      end in
    if same_value then (false, n)
    else if success then
      (true, mk (<[symbol := current_time]> (last_notification_time n))
                (<[symbol := imbalance_ratio]> (last_notification_value n)))
    else (false, n).

(** The two guards in front of the send: [true] when the call goes on
    to the external send. *)
Definition try_emit (n : t) (symbol : string)
    (imbalance_ratio current_time : float) : bool :=
  let last_time := default zero (last_notification_time n !! symbol) in
  if flt (fsub current_time last_time) notification_cooldown then false
  else
    match last_notification_value n !! symbol with
    | None => true
    | Some lv => negb (flt (fabs (fsub imbalance_ratio lv)) 0.0005)
    end.

End TelegramNotifier.

(** ** ImbalanceMonitor *)

(** The decision of the alert gate on one value. *)
Inductive Decision : Type := Alert | Suppress.

Module ImbalanceMonitor.

Record t : Type := mk {
  telegram_notifier : TelegramNotifier.t;
  last_imbalance_ratios : gmap string float;
  last_notification_time : gmap string float
}.

(** State after [__init__]. *)
Definition init : t := mk TelegramNotifier.init ∅ ∅.

Definition periodic_notification_interval : float := 30%float.

(** [TOP_ORDERS_COUNT] of [config.py]. *)
Definition TOP_ORDERS_COUNT : Z := 10.

(** What one pass through the gate did: nothing, or a call of
    [send_notification] with the value it returned. *)
Inductive outcome : Type :=
| Suppressed
| Alerted (notification_sent : bool).

Definition decision (o : outcome) : Decision :=
  match o with
  | Suppressed => Suppress
  | Alerted _ => Alert
  end.

Section Handler.

(** [IMBALANCE_THRESHOLD] of [config.py], read from the environment. *)
Variable IMBALANCE_THRESHOLD : float.

(** [ratio_changed] *)
Definition ratio_changed (m : t) (symbol : string)
    (imbalance_ratio : float) : bool :=
  match last_imbalance_ratios m !! symbol with
  | None => true
  | Some last_ratio => fgt (fabs (fsub imbalance_ratio last_ratio)) 0.0001
  end.

(** [exceeds_threshold] *)
Definition exceeds_threshold (imbalance_ratio : float) : bool :=
  fgt (fabs imbalance_ratio) (fabs IMBALANCE_THRESHOLD).

(** The part of [_handle_orderbook_update] that runs once [symbol] and
    [imbalance_ratio] are known.  [current_time] is the reading of
    [time.time()] in the handler, [notifier_time] the later one inside
    [send_notification], [success] the outcome of the external send. *)
Definition alert_gate (m : t) (symbol : string) (imbalance_ratio : float)
    (current_time notifier_time : float) (success : bool) : outcome * t :=
  let changed := ratio_changed m symbol imbalance_ratio in
  if exceeds_threshold imbalance_ratio then
    let last_notif_time := default zero (last_notification_time m !! symbol) in
    let time_since_last := fsub current_time last_notif_time in
    let should_send :=
      changed || fge time_since_last periodic_notification_interval in
    if should_send then
      let r := TelegramNotifier.send_notification (telegram_notifier m)
                 symbol imbalance_ratio notifier_time success in
      if r.1 then
        (Alerted true,
         mk r.2 (<[symbol := imbalance_ratio]> (last_imbalance_ratios m))
                (<[symbol := current_time]> (last_notification_time m)))
      else
        (Alerted false,
         mk r.2 (last_imbalance_ratios m) (last_notification_time m))
    else (Suppressed, m)
  else
    (Suppressed,
     mk (telegram_notifier m)
        (<[symbol := imbalance_ratio]> (last_imbalance_ratios m))
        (last_notification_time m)).

Variable py_float : string → option float.
Variable py_sum : list float → float.

(** [_handle_orderbook_update(self, data)]; [None] when the handler
    returns before the gate. *)
Definition _handle_orderbook_update (m : t) (data : orderbook_data)
    (current_time notifier_time : float) (success : bool)
    : option outcome * t :=
  match parse_orderbook_data data with
  | None => (None, m)
  | Some orderbook_data =>
      match process_orderbook py_float py_sum orderbook_data
              TOP_ORDERS_COUNT with
      | None => (None, m)
      | Some result =>
          if bool_decide (r_symbol result = "") then (None, m)
          else
            let r := alert_gate m (r_symbol result)
                       (r_imbalance_ratio result)
                       current_time notifier_time success in
            (Some r.1, r.2)
      end
  end.

End Handler.

(** One observation fed to the gate. *)
Record observation : Type := mk_observation {
  o_value : float;
  o_current_time : float;
  o_notifier_time : float;
  o_success : bool
}.

(** The gate run over a sequence of observations for one symbol, with
    the decisions in order. *)
Fixpoint run_gate (threshold : float) (m : t) (symbol : string)
    (obs : list observation) : list Decision * t :=
  match obs with
  | [] => ([], m)
  | o :: rest =>
      let r := alert_gate threshold m symbol (o_value o)
                 (o_current_time o) (o_notifier_time o) (o_success o) in
      let rs := run_gate threshold r.2 symbol rest in
      (decision r.1 :: rs.1, rs.2)
  end.

End ImbalanceMonitor.

(** ** The message callback of a stream

    [on_message] as a whole.  The builtins it relies on are parameters:
    [sorted] on the items of a price dictionary, in both directions, and
    [str] on a float.  [message] is the decoded payload, [None] when
    [json.loads] raises; [current_time] is the reading of [time.time()]
    taken when the gate is reached.  The first-message log counter has no
    effect on the state below and is left out. *)

Section OnMessage.

Variable py_float : string → option float.
(** [sorted(d.items(), reverse=True)] and [sorted(d.items())] *)
Variable sorted_desc : fdict → list (float * float).
Variable sorted_asc : fdict → list (float * float).
(** [str(x)] on a float *)
Variable py_str : float → string.

(** [[[str(p), str(q)] for p, q in items]] *)
Definition format_levels (items : list (float * float)) : list level :=
  map (λ pq, (py_str pq.1, py_str pq.2)) items.

Definition on_message (c : client) (symbol : string)
    (message : option update_data) (current_time : float)
    : client * option orderbook_data :=
  match message with
  | None => (c, None)
  | Some data =>
      let c1 := _update_orderbook py_float c symbol data in
      match orderbooks c1 !! symbol with
      | None => (c1, None)
      | Some orderbook =>
          if bool_decide (0 < length (ob_bids orderbook)) then
            let top_bids := take 20 (sorted_desc (ob_bids orderbook)) in
            let top_asks := take 20 (sorted_asc (ob_asks orderbook)) in
            match top_bids, top_asks with
            | _ :: _, _ :: _ =>
                let current_data :=
                  mk_orderbook_data symbol (format_levels top_bids)
                    (format_levels top_asks) in
                forward_gate c1 symbol current_data current_time
            | _, _ => (c1, None)
            end
          else (c1, None)
      end
  end.

End OnMessage.

(** ** Auxiliary notions used by the properties *)

(** Keys of a float dictionary are pairwise different for [==], in
    insertion order: what a [dict] built by assignments guarantees. *)
Fixpoint dict_wf (d : fdict) : Prop :=
  match d with
  | [] => True
  | (k, _) :: d' => Forall (λ e, feq k e.1 = false) d' ∧ dict_wf d'
  end.

(** A sequence of depth messages, each applied with [_update_orderbook]. *)
Fixpoint run_updates (py_float : string → option float) (c : client)
    (steps : list (string * update_data)) : client :=
  match steps with
  | [] => c
  | (symbol, u) :: rest =>
      run_updates py_float (_update_orderbook py_float c symbol u) rest
  end.

(** Client states that [start] followed by depth messages can produce. *)
Inductive reachable (py_float : string → option float) : client → Prop :=
| reachable_init : reachable py_float client_init
| reachable_snapshot c symbol snapshot c' cb :
    reachable py_float c →
    start_snapshot py_float c symbol snapshot = Some (c', cb) →
    reachable py_float c'
| reachable_update c symbol u :
    reachable py_float c →
    reachable py_float (_update_orderbook py_float c symbol u).

(** Every quantity stored in some book of the client satisfies [P]. *)
Definition stored_quantities (P : float → Prop) (c : client) : Prop :=
  ∀ symbol ob, orderbooks c !! symbol = Some ob →
    Forall P (dict_values (ob_bids ob)) ∧ Forall P (dict_values (ob_asks ob)).

(** The quantity of an entry, when it is a number, is [>= 0]. *)
Definition nonneg_quantity (py_float : string → option float) (e : level) : Prop :=
  ∀ q, py_float e.2 = Some q → fge q zero = true.

Definition nonneg_update (py_float : string → option float)
    (u : update_data) : Prop :=
  Forall (nonneg_quantity py_float) (bids_data_of u)
  ∧ Forall (nonneg_quantity py_float) (asks_data_of u).

(** An entry whose price or quantity is not a number. *)
Definition malformed (py_float : string → option float) (e : level) : Prop :=
  py_float e.1 = None ∨ py_float e.2 = None.

(** [t] is [price * quantity] for an entry whose two fields are numbers. *)
Definition notional_of (py_float : string → option float)
    (e : level) (t : float) : Prop :=
  ∃ price quantity, py_float e.1 = Some price
    ∧ py_float e.2 = Some quantity ∧ t = fmul price quantity.

(** The class of a float for [==]: none for [nan], one for both zeros,
    the value itself otherwise. *)
Definition sf_key (a : spec_float) : option spec_float :=
  match a with
  | S754_nan => None
  | S754_zero _ => Some (S754_zero false)
  | _ => Some a
  end.

(** [float(s)] on the handful of strings the examples use. *)
Definition sample_table : list (string * float) :=
  [("0", 0%float); ("0.00000000", 0%float); ("1", 1%float); ("2", 2%float);
   ("-1", (-1)%float); ("100", 100%float); ("101", 101%float)].

Definition sample_float (s : string) : option float :=
  match find (λ e, String.eqb e.1 s) sample_table with
  | Some e => Some e.2
  | None => None
  end.

(** [str(x)] on the floats the examples use; only these are meant. *)
Definition sample_str_table : list (float * string) :=
  [(1%float, "1.0"); (2%float, "2.0"); (100%float, "100.0");
   (101%float, "101.0")].

Definition sample_str (x : float) : string :=
  match find (λ e : float * string, feq e.1 x) sample_str_table with
  | Some e => e.2
  | None => "nan"
  end.

(** A depth message with the usual keys [bids] and [asks]. *)
Definition depth_update (bids asks : list level) : update_data :=
  mk_update_data (Some bids) None (Some asks) None.

(** ** Depth messages before their entries are unpacked

    The loops of [_update_orderbook] unpack every entry with
    [for price, qty in ...], outside the [try]: an entry that does not
    have exactly two fields raises a [ValueError] that the method does not
    catch.  Here an entry is the list of its fields, and the method says
    whether it returned or raised, with the state it left either way. *)

Module Raw.

Definition raw_level : Type := list string.

(** The dictionary of a depth message, as [update_data] above but with
    entries not yet unpacked. *)
Record message : Type := mk_message {
  m_bids : option (list raw_level);
  m_b : option (list raw_level);
  m_asks : option (list raw_level);
  m_a : option (list raw_level)
}.

Definition bids_data_of (u : message) : list raw_level :=
  default (default [] (m_b u)) (m_bids u).

Definition asks_data_of (u : message) : list raw_level :=
  default (default [] (m_a u)) (m_asks u).

(** [price, qty = entry]; [None] stands for the [ValueError]. *)
Definition unpack (e : raw_level) : option level :=
  match e with
  | [price; qty] => Some (price, qty)
  | _ => None
  end.

Inductive completion : Type :=
| Returned (c : client)
| Raised (c : client).

Section Method.

Variable py_float : string → option float.

(** One of the two loops; the flag is [false] when an entry raised,
    the entries before it having been applied. *)
Fixpoint update_side (d : fdict) (entries : list raw_level) : fdict * bool :=
  match entries with
  | [] => (d, true)
  | e :: rest =>
      match unpack e with
      | None => (d, false)
      | Some pq => update_side (update_entry py_float d pq) rest
      end
  end.

(** [_update_orderbook(self, symbol, update_data)] *)
Definition _update_orderbook (c : client) (symbol : string)
    (u : message) : completion :=
  let obs :=
    match orderbooks c !! symbol with
    | None => <[symbol := mk_orderbook [] []]> (orderbooks c)
    | Some _ => orderbooks c
    end in
  let orderbook := default (mk_orderbook [] []) (obs !! symbol) in
  let bids_data := bids_data_of u in
  let asks_data := asks_data_of u in
  let warned :=
    if bool_decide (length bids_data = 0 ∧ length asks_data = 0)
    then {[symbol]} ∪ empty_update_warned c
    else empty_update_warned c in
  let rb := update_side (ob_bids orderbook) bids_data in
  if rb.2 then
    let ra := update_side (ob_asks orderbook) asks_data in
    let c' := mk_client (<[symbol := mk_orderbook rb.1 ra.1]> obs)
                (last_sent_data c) (last_sent_time c) warned in
    if ra.2 then Returned c' else Raised c'
  else
    Raised (mk_client
              (<[symbol := mk_orderbook rb.1 (ob_asks orderbook)]> obs)
              (last_sent_data c) (last_sent_time c) warned).

End Method.

(** The message with every entry unpacked, entries that do not unpack
    left out. *)
Definition unpack_all (entries : list raw_level) : list level :=
  omap unpack entries.

Definition unpacked (u : message) : update_data :=
  mk_update_data (option_map unpack_all (m_bids u))
                 (option_map unpack_all (m_b u))
                 (option_map unpack_all (m_asks u))
                 (option_map unpack_all (m_a u)).

End Raw.

(** ** States reached from inputs of a given kind *)

(** The quantity of an entry, when it is a number, is not [== 0]. *)
Definition nonzero_quantity (py_float : string → option float) (e : level) : Prop :=
  ∀ q, py_float e.2 = Some q → feq q zero = false.

(** Client states that [start] and depth messages produce when every
    level of every snapshot satisfies [Qs] and every entry of every depth
    message satisfies [Qd]. *)
Inductive reachable_by (py_float : string → option float)
    (Qs Qd : level → Prop) : client → Prop :=
| reachable_by_init : reachable_by py_float Qs Qd client_init
| reachable_by_snapshot c symbol snapshot c' cb :
    reachable_by py_float Qs Qd c →
    (∀ s, snapshot = Some s → Forall Qs (od_bids s ++ od_asks s)) →
    start_snapshot py_float c symbol snapshot = Some (c', cb) →
    reachable_by py_float Qs Qd c'
| reachable_by_update c symbol u :
    reachable_by py_float Qs Qd c →
    Forall Qd (bids_data_of u ++ asks_data_of u) →
    reachable_by py_float Qs Qd (_update_orderbook py_float c symbol u).

(** * Properties *)

(** ** Float comparisons *)

Lemma SFeqb_true_iff a b :
  SFeqb a b = true ↔ sf_key a = sf_key b ∧ sf_key a ≠ None.
Proof.
  unfold SFeqb.
  destruct a as [s1|s1| |s1 m1 e1], b as [s2|s2| |s2 m2 e2]; simpl;
    try (split; [discriminate | intros [? ?]; congruence]);
    try (split; [done | done]);
    try (destruct s1; split; [discriminate | intros [? ?]; congruence]);
    try (destruct s2; split; [discriminate | intros [? ?]; congruence]).
  all: try (destruct s1, s2; split; (done || (intros [? ?]; congruence))).
  change (PosDef.Pos.compare_cont Eq m1 m2) with (Pos.compare m1 m2).
  destruct s1, s2; try (split; [discriminate | intros [? ?]; congruence]).
  - destruct (Z.compare_spec e1 e2) as [->| |];
      destruct (Pos.compare_spec m1 m2) as [->| |]; simpl;
      split; try done; intros [[= ] _]; lia.
  - destruct (Z.compare_spec e1 e2) as [->| |];
      destruct (Pos.compare_spec m1 m2) as [->| |]; simpl;
      split; try done; intros [[= ] _]; lia.
Qed.

Lemma feq_true_iff a b :
  feq a b = true ↔
  sf_key (Prim2SF a) = sf_key (Prim2SF b) ∧ sf_key (Prim2SF a) ≠ None.
Proof. unfold feq. rewrite FloatAxioms.eqb_spec. apply SFeqb_true_iff. Qed.

Lemma feq_sym a b : feq a b = true → feq b a = true.
Proof.
  rewrite !feq_true_iff. intros [H1 H2]. split; [done | congruence].
Qed.

Lemma feq_trans a b c : feq a b = true → feq b c = true → feq a c = true.
Proof.
  rewrite !feq_true_iff. intros [H1 H2] [H3 H4]. split; congruence.
Qed.

Lemma SFcompare_antisym x y :
  SFcompare y x = option_map CompOpp (SFcompare x y).
Proof.
  destruct x as [s1|s1| |s1 m1 e1], y as [s2|s2| |s2 m2 e2]; simpl;
    try reflexivity; try (by destruct s1); try (by destruct s2);
    try (by destruct s1, s2).
  change (PosDef.Pos.compare_cont Eq m1 m2) with (Pos.compare m1 m2).
  change (PosDef.Pos.compare_cont Eq m2 m1) with (Pos.compare m2 m1).
  rewrite (Z.compare_antisym e1 e2), (Pos.compare_antisym m1 m2).
  destruct s1, s2; simpl; try reflexivity;
    destruct (e1 ?= e2)%Z; simpl; try reflexivity;
    destruct (m1 ?= m2)%positive; reflexivity.
Qed.

(** [a <= b] excludes [a > b], and [a < b] excludes [a >= b]. *)
Lemma fle_not_fgt a b : fle a b = true → fgt a b = false.
Proof.
  unfold fle, fgt.
  rewrite FloatAxioms.leb_spec, FloatAxioms.ltb_spec. unfold SFleb, SFltb.
  rewrite (SFcompare_antisym (Prim2SF a) (Prim2SF b)).
  by destruct (SFcompare (Prim2SF a) (Prim2SF b)) as [[]|].
Qed.

Lemma flt_not_fge a b : flt a b = true → fge a b = false.
Proof.
  unfold flt, fge.
  rewrite FloatAxioms.leb_spec, FloatAxioms.ltb_spec. unfold SFleb, SFltb.
  rewrite (SFcompare_antisym (Prim2SF a) (Prim2SF b)).
  by destruct (SFcompare (Prim2SF a) (Prim2SF b)) as [[]|].
Qed.

(** [q >= 0] and [q != 0] give [0 < q]. *)
Lemma fge_zero_nonzero_pos q :
  fge q zero = true → feq q zero = false → flt zero q = true.
Proof.
  unfold fge, feq, flt, zero.
  rewrite FloatAxioms.leb_spec, FloatAxioms.eqb_spec, FloatAxioms.ltb_spec.
  change (Prim2SF 0) with (S754_zero false).
  unfold SFleb, SFeqb, SFltb.
  destruct (Prim2SF q) as [s|s| |s m e]; simpl; try done; by destruct s.
Qed.

(** ** Float-keyed dictionaries *)

Lemma dict_get_none_iff d k :
  dict_get d k = None ↔ Forall (λ e, feq e.1 k = false) d.
Proof.
  induction d as [|[k' v'] d IH]; simpl.
  - split; [constructor | done].
  - destruct (feq k' k) eqn:E.
    + split; [done | intros H; inversion H; simpl in *; congruence].
    + rewrite IH. split; [by constructor | by inversion 1].
Qed.

Lemma dict_pop_absent d k : dict_get d k = None → dict_pop d k = d.
Proof.
  induction d as [|[k' v'] d IH]; simpl; [done |].
  destruct (feq k' k); [done |]. intros H. by rewrite IH.
Qed.

Lemma dict_pop_Forall (P : float * float → Prop) d k :
  Forall P d → Forall P (dict_pop d k).
Proof.
  induction d as [|[k' v'] d IH]; simpl; [done |].
  intros H. inversion H; subst. destruct (feq k' k); [done |].
  constructor; auto.
Qed.

Lemma dict_wf_pop d k : dict_wf d → dict_wf (dict_pop d k).
Proof.
  induction d as [|[k' v'] d IH]; simpl; [done |].
  intros [Hk Hd]. destruct (feq k' k); [done |]. simpl. split; [| auto].
  by apply dict_pop_Forall.
Qed.

Lemma dict_wf_set d k v : dict_wf d → dict_wf (dict_set d k v).
Proof.
  induction d as [|[k' v'] d IH]; simpl.
  - intros _. split; [constructor | done].
  - intros [Hk Hd]. destruct (feq k' k) eqn:E; simpl.
    + done.
    + split; [| auto]. clear IH Hd.
      induction d as [|[k2 v2] d IH]; simpl.
      * constructor; [done | constructor].
      * inversion Hk as [|? ? H2 Hk']; subst. simpl in H2.
        destruct (feq k2 k); constructor; simpl; auto.
Qed.

Lemma dict_get_pop d k : dict_wf d → dict_get (dict_pop d k) k = None.
Proof.
  induction d as [|[k' v'] d IH]; simpl; [done |].
  intros [Hk Hd]. destruct (feq k' k) eqn:E; simpl.
  - apply dict_get_none_iff. eapply Forall_impl; [exact Hk |]. simpl.
    intros e He. destruct (feq e.1 k) eqn:E2; [| done].
    assert (feq k' e.1 = true) as Hc
      by (eapply feq_trans; [exact E | by apply feq_sym]).
    congruence.
  - rewrite E. auto.
Qed.

Lemma dict_get_set d k v :
  feq k k = true → dict_get (dict_set d k v) k = Some v.
Proof.
  intros Hk. induction d as [|[k' v'] d IH]; simpl.
  - by rewrite Hk.
  - destruct (feq k' k) eqn:E; simpl; by rewrite E.
Qed.

Lemma dict_values_pop (P : float → Prop) d k :
  Forall P (dict_values d) → Forall P (dict_values (dict_pop d k)).
Proof.
  unfold dict_values.
  induction d as [|[k' v'] d IH]; simpl; [done |].
  intros H. inversion H; subst. destruct (feq k' k); [done |].
  simpl. constructor; auto.
Qed.

Lemma dict_values_set (P : float → Prop) d k v :
  P v → Forall P (dict_values d) → Forall P (dict_values (dict_set d k v)).
Proof.
  unfold dict_values. intros Hv.
  induction d as [|[k' v'] d IH]; simpl.
  - intros _. by constructor.
  - intros H. inversion H; subst.
    destruct (feq k' k); simpl; constructor; auto.
Qed.

(** ** The order-book store *)

Section Store.

Context (py_float : string → option float).

Lemma update_side_app d l1 l2 :
  update_side py_float d (l1 ++ l2)
  = update_side py_float (update_side py_float d l1) l2.
Proof. revert d. induction l1 as [|e l1 IH]; simpl; auto. Qed.

Lemma update_entry_malformed d e :
  malformed py_float e → update_entry py_float d e = d.
Proof.
  unfold update_entry. intros [-> | H]; [done |].
  destruct (py_float e.1); [by rewrite H | done].
Qed.

Lemma update_entry_wf d e : dict_wf d → dict_wf (update_entry py_float d e).
Proof.
  intros H. unfold update_entry.
  destruct (py_float e.1); [| done]. destruct (py_float e.2); [| done].
  destruct (feq _ _); [by apply dict_wf_pop | by apply dict_wf_set].
Qed.

Lemma update_side_wf d l : dict_wf d → dict_wf (update_side py_float d l).
Proof.
  revert d. induction l as [|e l IH]; simpl; [done |].
  intros d H. by apply IH, update_entry_wf.
Qed.

Lemma update_entry_values (P : float → Prop) d e :
  (∀ q, py_float e.2 = Some q → feq q zero = false → P q) →
  Forall P (dict_values d) →
  Forall P (dict_values (update_entry py_float d e)).
Proof.
  intros He Hd. unfold update_entry.
  destruct (py_float e.1); [| done].
  destruct (py_float e.2) as [q|] eqn:Eq; [| done].
  destruct (feq q zero) eqn:Ez.
  - by apply dict_values_pop.
  - apply dict_values_set; auto.
Qed.

Lemma update_side_values (P : float → Prop) d l :
  Forall (λ e, ∀ q, py_float e.2 = Some q → feq q zero = false → P q) l →
  Forall P (dict_values d) →
  Forall P (dict_values (update_side py_float d l)).
Proof.
  revert d. induction l as [|e l IH]; simpl; [done |].
  intros d Hl Hd. inversion Hl; subst.
  apply IH; [done |]. by apply update_entry_values.
Qed.

(** The two lookups of [_update_orderbook] collapse into one. *)
Lemma update_orderbook_books c symbol u :
  orderbooks (_update_orderbook py_float c symbol u)
  = <[symbol :=
        mk_orderbook
          (update_side py_float
             (ob_bids (default (mk_orderbook [] []) (orderbooks c !! symbol)))
             (bids_data_of u))
          (update_side py_float
             (ob_asks (default (mk_orderbook [] []) (orderbooks c !! symbol)))
             (asks_data_of u))]> (orderbooks c).
Proof.
  unfold _update_orderbook. simpl.
  destruct (orderbooks c !! symbol) as [ob|] eqn:E; simpl.
  - by rewrite E.
  - by rewrite lookup_insert_eq, insert_insert_eq.
Qed.

Lemma update_orderbook_stored (P : float → Prop) c symbol u :
  Forall (λ e, ∀ q, py_float e.2 = Some q → feq q zero = false → P q)
    (bids_data_of u) →
  Forall (λ e, ∀ q, py_float e.2 = Some q → feq q zero = false → P q)
    (asks_data_of u) →
  stored_quantities P c →
  stored_quantities P (_update_orderbook py_float c symbol u).
Proof.
  intros Hb Ha Hc s ob. rewrite update_orderbook_books.
  destruct (decide (symbol = s)) as [->|Hne].
  - rewrite lookup_insert_eq. intros [= <-]. simpl.
    destruct (orderbooks c !! s) as [ob0|] eqn:E; simpl.
    + destruct (Hc s ob0 E). split; by apply update_side_values.
    + split; apply update_side_values; try done; constructor.
  - rewrite lookup_insert_ne by done. apply Hc.
Qed.

Lemma run_updates_stored (P : float → Prop) steps c :
  Forall (λ su : string * update_data,
    Forall (λ e, ∀ q, py_float e.2 = Some q → feq q zero = false → P q)
      (bids_data_of su.2)
    ∧ Forall (λ e, ∀ q, py_float e.2 = Some q → feq q zero = false → P q)
      (asks_data_of su.2)) steps →
  stored_quantities P c →
  stored_quantities P (run_updates py_float c steps).
Proof.
  revert c. induction steps as [|[s u] steps IH]; simpl; [done |].
  intros c Hs Hc. inversion Hs as [|? ? [Hb Ha] Hs']; subst. simpl in *.
  apply IH; [done |]. by apply update_orderbook_stored.
Qed.

Lemma stored_quantities_init (P : float → Prop) :
  stored_quantities P client_init.
Proof. intros s ob. simpl. by rewrite lookup_empty. Qed.

Lemma dict_of_levels_wf acc levels d :
  dict_wf acc → dict_of_levels py_float acc levels = Some d → dict_wf d.
Proof.
  revert acc. induction levels as [|e l IH]; simpl; intros acc Hacc.
  - by intros [= <-].
  - destruct (py_float e.1); [| done]. destruct (py_float e.2); [| done].
    apply IH. by apply dict_wf_set.
Qed.

(** The dictionaries of every reachable book have pairwise different
    keys. *)
Lemma reachable_wf c :
  reachable py_float c →
  ∀ symbol ob, orderbooks c !! symbol = Some ob →
    dict_wf (ob_bids ob) ∧ dict_wf (ob_asks ob).
Proof.
  induction 1 as [|c symbol snapshot c' cb Hr IH Hs|c symbol u Hr IH];
    intros s ob.
  - simpl. by rewrite lookup_empty.
  - unfold start_snapshot in Hs. destruct snapshot as [sn|].
    + destruct (dict_of_levels py_float [] (od_bids sn)) as [b|] eqn:Eb;
        [| done].
      destruct (dict_of_levels py_float [] (od_asks sn)) as [a|] eqn:Ea;
        [| done].
      injection Hs as <- _. simpl.
      destruct (decide (symbol = s)) as [->|Hne].
      * rewrite lookup_insert_eq. intros [= <-]. simpl.
        split; eapply dict_of_levels_wf; try eassumption; done.
      * rewrite lookup_insert_ne by done. apply IH.
    + injection Hs as <- _. apply IH.
  - rewrite update_orderbook_books.
    destruct (decide (symbol = s)) as [->|Hne].
    + rewrite lookup_insert_eq. intros [= <-]. simpl.
      destruct (orderbooks c !! s) as [ob0|] eqn:E; simpl.
      * destruct (IH s ob0 E). split; by apply update_side_wf.
      * split; by apply update_side_wf.
    + rewrite lookup_insert_ne by done. apply IH.
Qed.

(** C7: a delta is applied entry by entry.  Whatever precedes and
    follows it in the same delta, an entry whose price or quantity is not
    a number is skipped and the others are applied as if it were not
    there; an entry with quantity [== 0] pops its price, which leaves the
    dictionary as it is when the price is absent and leaves the price
    absent otherwise; any other entry assigns the quantity to the price,
    which is then what the dictionary holds for that price. *)
Theorem update_side_entrywise d l1 price qty l2 :
  (malformed py_float (price, qty) →
     update_side py_float d (l1 ++ (price, qty) :: l2)
     = update_side py_float d (l1 ++ l2))
  ∧ (∀ p q, py_float price = Some p → py_float qty = Some q →
      (feq q zero = true →
         update_side py_float d (l1 ++ (price, qty) :: l2)
         = update_side py_float (dict_pop (update_side py_float d l1) p) l2
         ∧ (dict_get (update_side py_float d l1) p = None →
              dict_pop (update_side py_float d l1) p
              = update_side py_float d l1)
         ∧ (dict_wf d →
              dict_get (dict_pop (update_side py_float d l1) p) p = None))
      ∧ (feq q zero = false →
         update_side py_float d (l1 ++ (price, qty) :: l2)
         = update_side py_float
             (dict_set (update_side py_float d l1) p q) l2
         ∧ (feq p p = true →
              dict_get (dict_set (update_side py_float d l1) p q) p
              = Some q))).
Proof.
  split.
  - intros Hm. rewrite !update_side_app. simpl.
    by rewrite update_entry_malformed.
  - intros p q Hp Hq. split; intros Hz.
    + split; [| split].
      * rewrite update_side_app. simpl. unfold update_entry. simpl.
        by rewrite Hp, Hq, Hz.
      * apply dict_pop_absent.
      * intros Hwf. by apply dict_get_pop, update_side_wf.
    + split.
      * rewrite update_side_app. simpl. unfold update_entry. simpl.
        by rewrite Hp, Hq, Hz.
      * apply dict_get_set.
Qed.

(** A delta for a symbol that has no book starts from the empty book:
    afterwards the symbol's book is the delta applied to two empty
    dictionaries, and the books of the other symbols are as before. *)
Lemma update_orderbook_absent_symbol c symbol u :
  orderbooks c !! symbol = None →
  orderbooks (_update_orderbook py_float c symbol u)
  = <[symbol :=
        mk_orderbook (update_side py_float [] (bids_data_of u))
                     (update_side py_float [] (asks_data_of u))]>
      (orderbooks c).
Proof. intros H. rewrite update_orderbook_books. by rewrite H. Qed.

(** In a state reached from the initial client by depth messages alone
    no stored quantity is [== 0], and every stored quantity is [> 0]
    provided the quantities of the messages that are numbers are
    [>= 0]. *)
Lemma delta_quantities_nonzero steps symbol ob q :
  orderbooks (run_updates py_float client_init steps) !! symbol = Some ob →
  q ∈ dict_values (ob_bids ob) ++ dict_values (ob_asks ob) →
  feq q zero = false
  ∧ (Forall (λ su : string * update_data, nonneg_update py_float su.2) steps →
     flt zero q = true).
Proof.
  intros Hl Hq. split.
  - assert (stored_quantities (λ q, feq q zero = false)
              (run_updates py_float client_init steps)) as H.
    { apply run_updates_stored; [| apply stored_quantities_init].
      apply Forall_forall. intros su _. split; by apply Forall_forall. }
    destruct (H symbol ob Hl) as [Hb Ha].
    apply elem_of_app in Hq as [Hq|Hq];
      [rewrite Forall_forall in Hb | rewrite Forall_forall in Ha]; auto.
  - intros Hn.
    assert (stored_quantities (λ q, flt zero q = true)
              (run_updates py_float client_init steps)) as H.
    { apply run_updates_stored; [| apply stored_quantities_init].
      eapply Forall_impl; [exact Hn |]. intros su [Hb Ha]. simpl.
      split; (eapply Forall_impl; [eassumption |]); simpl;
        intros e He q' Hq' Hz; apply fge_zero_nonzero_pos; auto. }
    destruct (H symbol ob Hl) as [Hb Ha].
    apply elem_of_app in Hq as [Hq|Hq];
      [rewrite Forall_forall in Hb | rewrite Forall_forall in Ha]; auto.
Qed.

End Store.

(** Two depth messages on the initial client: the first stores a bid and
    an ask, the second removes the bid and skips an entry that is not a
    number. *)
Example update_side_sample :
  update_side sample_float []
    [("100", "1"); ("abc", "1"); ("101", "2"); ("100", "0.00000000")]
  = [(101%float, 2%float)].
Proof. reflexivity. Qed.

Lemma delta_quantities_nonzero_witness :
  feq 2 zero = false
  ∧ (Forall (λ su : string * update_data, nonneg_update sample_float su.2)
       [("BTCUSDT", depth_update [("100", "1")] [("101", "2")])] →
     flt zero 2 = true).
Proof.
  apply (delta_quantities_nonzero sample_float
           [("BTCUSDT", depth_update [("100", "1")] [("101", "2")])]
           "BTCUSDT" (mk_orderbook [(100%float, 1%float)] [(101%float, 2%float)])
           2%float).
  - vm_compute. reflexivity.
  - simpl. apply list_elem_of_further, list_elem_of_here.
Defined.

Lemma update_orderbook_absent_symbol_witness :
  orderbooks (_update_orderbook sample_float client_init "BTCUSDT"
                (depth_update [("100", "1")] [("101", "2")]))
  = <["BTCUSDT" :=
        mk_orderbook
          (update_side sample_float []
             (bids_data_of (depth_update [("100", "1")] [("101", "2")])))
          (update_side sample_float []
             (asks_data_of (depth_update [("100", "1")] [("101", "2")])))]>
      (orderbooks client_init).
Proof.
  apply (update_orderbook_absent_symbol sample_float client_init "BTCUSDT").
  reflexivity.
Defined.

(** C6: the code breaks the invariant on the snapshot path.  A snapshot
    level with quantity ["0"] is stored with quantity [0.0] by [start],
    in a reachable state, whereas the same level arriving as a depth
    message is not stored: [_update_orderbook] removes the price when
    the quantity is [== 0], the dictionary comprehension of [start] has
    no such test. *)
Theorem snapshot_zero_quantity_stored :
  ∃ c cb,
    start_snapshot sample_float client_init "BTCUSDT"
      (Some (mk_orderbook_data "BTCUSDT" [("100", "0")] [("101", "1")]))
    = Some (c, cb)
    ∧ reachable sample_float c
    ∧ orderbooks c !! "BTCUSDT"
      = Some (mk_orderbook [(100%float, 0%float)] [(101%float, 1%float)])
    ∧ feq 0 zero = true ∧ flt zero 0 = false
    ∧ orderbooks
        (_update_orderbook sample_float client_init "BTCUSDT"
           (depth_update [("100", "0")] [("101", "1")])) !! "BTCUSDT"
      = Some (mk_orderbook [] [(101%float, 1%float)]).
Proof.
  eexists _, _. split; [reflexivity |].
  split.
  { eapply reachable_snapshot with
      (c := client_init) (symbol := "BTCUSDT")
      (snapshot := Some (mk_orderbook_data "BTCUSDT"
                           [("100", "0")] [("101", "1")]));
      [apply reachable_init | reflexivity]. }
  split; [vm_compute; reflexivity |].
  split; [reflexivity |]. split; [reflexivity |].
  vm_compute. reflexivity.
Qed.

(** ** The initial snapshot *)

(** C9, as amended: the snapshot step of [start] has no emptiness check.
    With an empty bids list (or an empty asks list) it raises only when an
    entry of the other list is not a number, and otherwise replaces the
    book of the symbol by the dictionaries built from the two lists, an
    empty dictionary for the empty list; the snapshot is still handed to
    the callback, where [parse_orderbook_data] rejects it. *)
Theorem start_snapshot_empty_side py_float c symbol s levels :
  start_snapshot py_float c symbol (Some (mk_orderbook_data s [] levels))
  = match dict_of_levels py_float [] levels with
    | Some a =>
        Some (set_orderbooks c
                (<[symbol := mk_orderbook [] a]> (orderbooks c)),
              Some (mk_orderbook_data symbol [] levels))
    | None => None
    end
  ∧ start_snapshot py_float c symbol (Some (mk_orderbook_data s levels []))
    = match dict_of_levels py_float [] levels with
      | Some b =>
          Some (set_orderbooks c
                  (<[symbol := mk_orderbook b []]> (orderbooks c)),
                Some (mk_orderbook_data symbol levels []))
      | None => None
      end
  ∧ parse_orderbook_data (mk_orderbook_data symbol [] levels) = None
  ∧ parse_orderbook_data (mk_orderbook_data symbol levels []) = None.
Proof.
  unfold start_snapshot, parse_orderbook_data. simpl.
  split; [| split; [| split]].
  - done.
  - by destruct (dict_of_levels py_float [] levels).
  - by destruct (bool_decide (symbol = "")).
  - destruct (bool_decide (symbol = "")), (bool_decide (levels = [])); done.
Qed.

(** C9, as stated, fails: a snapshot with no bids and no asks is accepted,
    on the initial client and on a client that already holds a book for
    the symbol, whose book is replaced by the empty one. *)
Lemma empty_snapshot_accepted :
  (∃ c,
     start_snapshot sample_float client_init "BTCUSDT"
       (Some (mk_orderbook_data "BTCUSDT" [] []))
     = Some (c, Some (mk_orderbook_data "BTCUSDT" [] []))
     ∧ orderbooks c !! "BTCUSDT" = Some (mk_orderbook [] []))
  ∧ (∃ c0 cb0 c,
       start_snapshot sample_float client_init "BTCUSDT"
         (Some (mk_orderbook_data "BTCUSDT" [("100", "1")] [("101", "2")]))
       = Some (c0, cb0)
       ∧ orderbooks c0 !! "BTCUSDT"
         = Some (mk_orderbook [(100%float, 1%float)] [(101%float, 2%float)])
       ∧ start_snapshot sample_float c0 "BTCUSDT"
           (Some (mk_orderbook_data "BTCUSDT" [] [("101", "2")]))
         = Some (c, Some (mk_orderbook_data "BTCUSDT" [] [("101", "2")]))
       ∧ orderbooks c !! "BTCUSDT"
         = Some (mk_orderbook [] [(101%float, 2%float)])).
Proof.
  split.
  - eexists. split; [reflexivity | vm_compute; reflexivity].
  - eexists _, _, _. split; [reflexivity |].
    split; [vm_compute; reflexivity |].
    split; [reflexivity | vm_compute; reflexivity].
Qed.

(** ** The forwarding gate *)

(** C5: the gate forwards exactly when nothing was forwarded yet for the
    symbol, or the first ten bids or the first ten asks differ from those
    forwarded last, or [current_time - last_time >= 5.0]; when it forwards
    it records the current data and time for the symbol and calls the
    callback with the data, and when it does not the client is unchanged
    and no callback is made. *)
Theorem forward_gate_spec c symbol current_data current_time :
  (should_send c symbol current_data current_time = true ↔
     last_sent_data c !! symbol = None
     ∨ (∃ last_data, last_sent_data c !! symbol = Some last_data
          ∧ (take 10 (od_bids last_data) ≠ take 10 (od_bids current_data)
             ∨ take 10 (od_asks last_data) ≠ take 10 (od_asks current_data)))
     ∨ fge (fsub current_time (default zero (last_sent_time c !! symbol))) 5
       = true)
  ∧ (should_send c symbol current_data current_time = true →
       forward_gate c symbol current_data current_time
       = (mk_client (orderbooks c)
            (<[symbol := current_data]> (last_sent_data c))
            (<[symbol := current_time]> (last_sent_time c))
            (empty_update_warned c),
          Some current_data))
  ∧ (should_send c symbol current_data current_time = false →
       forward_gate c symbol current_data current_time = (c, None)).
Proof.
  split; [| split].
  - unfold should_send.
    destruct (last_sent_data c !! symbol) as [last_data|] eqn:E.
    + destruct (decide (take 10 (od_bids last_data)
                        = take 10 (od_bids current_data))) as [Hb|Hb];
      destruct (decide (take 10 (od_asks last_data)
                        = take 10 (od_asks current_data))) as [Ha|Ha].
      * rewrite !bool_decide_eq_false_2 by (intros ?; done). simpl.
        destruct (fge _ 5) eqn:Et.
        -- split; [by right; right | done].
        -- split; [done |]. intros [? | [[l [[= <-] [? | ?]]] | ?]]; done.
      * rewrite bool_decide_eq_false_2 by (intros ?; done).
        rewrite bool_decide_eq_true_2 by done. simpl.
        split; [| done]. intros _. right; left. exists last_data. auto.
      * rewrite bool_decide_eq_true_2 by done. simpl.
        split; [| done]. intros _. right; left. exists last_data. auto.
      * rewrite bool_decide_eq_true_2 by done. simpl.
        split; [| done]. intros _. right; left. exists last_data. auto.
    + split; [by left | done].
  - intros H. unfold forward_gate. by rewrite H.
  - intros H. unfold forward_gate. by rewrite H.
Qed.

(** ** The imbalance engine *)

Section Engine.

Context (py_float : string → option float) (py_sum : list float → float).

Local Abbreviation notional_of := (notional_of py_float).

Lemma notionals_Forall2 levels terms :
  notionals py_float levels = Some terms ↔ Forall2 notional_of levels terms.
Proof.
  revert terms. induction levels as [|e l IH]; intros terms; simpl.
  - split; [intros [= <-]; constructor | by inversion 1].
  - split.
    + destruct (py_float e.1) as [p|] eqn:Ep; [| done].
      destruct (py_float e.2) as [q|] eqn:Eq; [| done].
      destruct (notionals py_float l) as [ns|] eqn:En; [| done].
      intros [= <-]. constructor; [| by apply IH].
      by exists p, q.
    + inversion 1 as [|? t ? ts (p & q & Hp & Hq & ->) Hl]; subst.
      rewrite Hp, Hq. apply IH in Hl. by rewrite Hl.
Qed.

Lemma top_levels_take l top_n :
  (0 ≤ top_n)%Z → top_levels l top_n = take (Z.to_nat top_n) l.
Proof.
  intros H. unfold top_levels, py_slice_to.
  destruct (top_n <=? Z.of_nat (length l))%Z eqn:E.
  - destruct (top_n <? 0)%Z eqn:E2; [lia | done].
  - symmetry. apply take_ge. lia.
Qed.

(** C8: with [top_n >= 0] and numbers in the levels that are read, the
    two volumes are the sums of [price * quantity] over the first
    [top_n] levels of each side (all of them when the side is shorter);
    the result is [None] exactly when their sum is [== 0], a test made
    before the division, and otherwise the difference of the volumes
    divided by their sum. *)
Theorem calculate_imbalance_ratio_spec bids asks top_n bid_terms ask_terms :
  (0 ≤ top_n)%Z →
  Forall2 notional_of (take (Z.to_nat top_n) bids) bid_terms →
  Forall2 notional_of (take (Z.to_nat top_n) asks) ask_terms →
  length (take (Z.to_nat top_n) bids) = Z.to_nat top_n `min` length bids
  ∧ length (take (Z.to_nat top_n) asks) = Z.to_nat top_n `min` length asks
  ∧ (calculate_imbalance_ratio py_float py_sum bids asks top_n = None ↔
       feq (fadd (py_sum bid_terms) (py_sum ask_terms)) zero = true)
  ∧ (feq (fadd (py_sum bid_terms) (py_sum ask_terms)) zero = false →
       calculate_imbalance_ratio py_float py_sum bids asks top_n
       = Some (fdiv (fsub (py_sum bid_terms) (py_sum ask_terms))
                    (fadd (py_sum bid_terms) (py_sum ask_terms)))).
Proof.
  intros Hn Hb Ha.
  split; [apply length_take |]. split; [apply length_take |].
  apply notionals_Forall2 in Hb, Ha.
  unfold calculate_imbalance_ratio.
  rewrite !top_levels_take by done. rewrite Hb, Ha.
  destruct (feq _ zero); split; done.
Qed.

End Engine.

Lemma calculate_imbalance_ratio_spec_witness :
  length (take (Z.to_nat 1) [("100", "1"); ("101", "2")])
  = Z.to_nat 1 `min` length [("100", "1"); ("101", "2")]
  ∧ length (take (Z.to_nat 1) [("100", "2")])
    = Z.to_nat 1 `min` length [("100", "2")]
  ∧ (calculate_imbalance_ratio sample_float fsum
       [("100", "1"); ("101", "2")] [("100", "2")] 1 = None ↔
     feq (fadd (fsum [100%float]) (fsum [200%float])) zero = true)
  ∧ (feq (fadd (fsum [100%float]) (fsum [200%float])) zero = false →
     calculate_imbalance_ratio sample_float fsum
       [("100", "1"); ("101", "2")] [("100", "2")] 1
     = Some (fdiv (fsub (fsum [100%float]) (fsum [200%float]))
                  (fadd (fsum [100%float]) (fsum [200%float])))).
Proof.
  apply (calculate_imbalance_ratio_spec sample_float fsum
           [("100", "1"); ("101", "2")] [("100", "2")] 1
           [100%float] [200%float]).
  - lia.
  - simpl. constructor; [| constructor].
    exists 100%float, 1%float. split; [| split]; reflexivity.
  - simpl. constructor; [| constructor].
    exists 100%float, 2%float. split; [| split]; reflexivity.
Defined.

(** Balanced books give [0.0]; a book with no volume at all gives [None]. *)
Example calculate_imbalance_ratio_samples :
  calculate_imbalance_ratio sample_float fsum [("100", "1")] [("100", "1")] 1
  = Some 0%float
  ∧ calculate_imbalance_ratio sample_float fsum [("100", "0")] [("101", "0")] 10
    = None
  ∧ calculate_imbalance_ratio sample_float fsum [("100", "abc")] [("101", "1")] 10
    = None.
Proof. repeat split. Qed.

(** ** The notification throttle *)

Lemma send_notification_try_emit n symbol v now success :
  TelegramNotifier.send_notification n symbol v now success
  = if TelegramNotifier.try_emit n symbol v now && success
    then (true,
          TelegramNotifier.mk
            (<[symbol := now]> (TelegramNotifier.last_notification_time n))
            (<[symbol := v]> (TelegramNotifier.last_notification_value n)))
    else (false, n).
Proof.
  unfold TelegramNotifier.send_notification, TelegramNotifier.try_emit.
  destruct (flt _ TelegramNotifier.notification_cooldown); [done |].
  destruct (TelegramNotifier.last_notification_value n !! symbol) as [lv|].
  - destruct (flt (fabs (fsub v lv)) _); simpl; [done |]. by destruct success.
  - simpl. by destruct success.
Qed.

Lemma send_notification_false_state n symbol v now success :
  (TelegramNotifier.send_notification n symbol v now success).1 = false →
  (TelegramNotifier.send_notification n symbol v now success).2 = n.
Proof.
  rewrite send_notification_try_emit.
  by destruct (TelegramNotifier.try_emit n symbol v now && success).
Qed.

Lemma try_emit_no_delivery n symbol v now :
  TelegramNotifier.last_notification_time n !! symbol = None →
  TelegramNotifier.last_notification_value n !! symbol = None →
  TelegramNotifier.try_emit n symbol v now
  = negb (flt (fsub now zero) TelegramNotifier.notification_cooldown).
Proof.
  intros Ht Hv. unfold TelegramNotifier.try_emit. rewrite Ht, Hv. simpl.
  by destruct (flt _ TelegramNotifier.notification_cooldown).
Qed.

(** The guards for an arbitrary float in place of the clock: they
    refuse when [now - last_time < 10] and when a delivered value exists
    within [0.0005] of the new one, and let the call through otherwise;
    the time of a symbol with no delivery is read as [0].  The two
    dictionaries change only when the guards passed and the send
    succeeded, and then record [now] and the value. *)
Lemma try_emit_spec n symbol v now success :
  (flt (fsub now (default zero
                    (TelegramNotifier.last_notification_time n !! symbol)))
       TelegramNotifier.notification_cooldown = true →
     TelegramNotifier.try_emit n symbol v now = false)
  ∧ (∀ lv, TelegramNotifier.last_notification_value n !! symbol = Some lv →
       flt (fabs (fsub v lv)) 0.0005 = true →
       TelegramNotifier.try_emit n symbol v now = false)
  ∧ (flt (fsub now (default zero
                      (TelegramNotifier.last_notification_time n !! symbol)))
         TelegramNotifier.notification_cooldown = false →
     (∀ lv, TelegramNotifier.last_notification_value n !! symbol = Some lv →
        flt (fabs (fsub v lv)) 0.0005 = false) →
     TelegramNotifier.try_emit n symbol v now = true)
  ∧ (TelegramNotifier.last_notification_time n !! symbol = None →
     TelegramNotifier.last_notification_value n !! symbol = None →
     TelegramNotifier.try_emit n symbol v now
     = negb (flt (fsub now zero) TelegramNotifier.notification_cooldown))
  ∧ TelegramNotifier.send_notification n symbol v now success
    = (if TelegramNotifier.try_emit n symbol v now && success
       then (true,
             TelegramNotifier.mk
               (<[symbol := now]> (TelegramNotifier.last_notification_time n))
               (<[symbol := v]> (TelegramNotifier.last_notification_value n)))
       else (false, n)).
Proof.
  split; [| split; [| split; [| split]]].
  - intros H. unfold TelegramNotifier.try_emit. by rewrite H.
  - intros lv Hl Hv. unfold TelegramNotifier.try_emit. rewrite Hl, Hv.
    by destruct (flt _ TelegramNotifier.notification_cooldown).
  - intros Ht Hv. unfold TelegramNotifier.try_emit. rewrite Ht.
    destruct (TelegramNotifier.last_notification_value n !! symbol) as [lv|];
      [| done].
    by rewrite (Hv lv).
  - apply try_emit_no_delivery.
  - apply send_notification_try_emit.
Qed.

(** The default [0] of the time shows only below [10.0], which
    [time.time()] never reads: there a first call would be refused by the
    cooldown. *)
Example first_emit_refused_by_cooldown :
  TelegramNotifier.last_notification_time TelegramNotifier.init !! "BTCUSDT"
  = None
  ∧ TelegramNotifier.last_notification_value TelegramNotifier.init !! "BTCUSDT"
    = None
  ∧ TelegramNotifier.try_emit TelegramNotifier.init "BTCUSDT" 0.6 5 = false
  ∧ TelegramNotifier.send_notification TelegramNotifier.init "BTCUSDT" 0.6 5 true
    = (false, TelegramNotifier.init).
Proof. split; [| split; [| split]]; reflexivity. Qed.

(** After a delivery at [1000.0] a call at [1005.0] is refused whatever
    the value, and one at [1011.0] with a value [0.0002] away is refused as
    well; a value [0.05] away goes through. *)
Example send_notification_samples :
  let n := (TelegramNotifier.send_notification TelegramNotifier.init
              "BTCUSDT" 0.6 1000 true).2 in
  TelegramNotifier.try_emit n "BTCUSDT" 0.9 1005 = false
  ∧ TelegramNotifier.try_emit n "BTCUSDT" 0.6002 1011 = false
  ∧ TelegramNotifier.try_emit n "BTCUSDT" 0.65 1011 = true.
Proof. vm_compute. split; [| split]; reflexivity. Qed.

(** ** The alert gate *)

Section Gate.

Context (threshold : float).

Lemma gate_under m symbol v t nt success :
  ImbalanceMonitor.exceeds_threshold threshold v = false →
  ImbalanceMonitor.alert_gate threshold m symbol v t nt success
  = (ImbalanceMonitor.Suppressed,
     ImbalanceMonitor.mk (ImbalanceMonitor.telegram_notifier m)
       (<[symbol := v]> (ImbalanceMonitor.last_imbalance_ratios m))
       (ImbalanceMonitor.last_notification_time m)).
Proof. intros H. unfold ImbalanceMonitor.alert_gate. by rewrite H. Qed.

Lemma gate_frozen m symbol v t nt success :
  ImbalanceMonitor.exceeds_threshold threshold v = true →
  ImbalanceMonitor.ratio_changed m symbol v = false →
  fge (fsub t (default zero
                 (ImbalanceMonitor.last_notification_time m !! symbol)))
      ImbalanceMonitor.periodic_notification_interval = false →
  ImbalanceMonitor.alert_gate threshold m symbol v t nt success
  = (ImbalanceMonitor.Suppressed, m).
Proof.
  intros He Hc Ht. unfold ImbalanceMonitor.alert_gate.
  by rewrite He, Hc, Ht.
Qed.

Lemma gate_send m symbol v t nt success :
  ImbalanceMonitor.exceeds_threshold threshold v = true →
  ImbalanceMonitor.ratio_changed m symbol v
  || fge (fsub t (default zero
                    (ImbalanceMonitor.last_notification_time m !! symbol)))
         ImbalanceMonitor.periodic_notification_interval = true →
  ImbalanceMonitor.alert_gate threshold m symbol v t nt success
  = (if (TelegramNotifier.send_notification
           (ImbalanceMonitor.telegram_notifier m) symbol v nt success).1
     then (ImbalanceMonitor.Alerted true,
           ImbalanceMonitor.mk
             (TelegramNotifier.send_notification
                (ImbalanceMonitor.telegram_notifier m) symbol v nt success).2
             (<[symbol := v]> (ImbalanceMonitor.last_imbalance_ratios m))
             (<[symbol := t]> (ImbalanceMonitor.last_notification_time m)))
     else (ImbalanceMonitor.Alerted false,
           ImbalanceMonitor.mk
             (TelegramNotifier.send_notification
                (ImbalanceMonitor.telegram_notifier m) symbol v nt success).2
             (ImbalanceMonitor.last_imbalance_ratios m)
             (ImbalanceMonitor.last_notification_time m))).
Proof.
  intros He Hs. unfold ImbalanceMonitor.alert_gate.
  by rewrite He, Hs.
Qed.

Lemma gate_alerted_inv m symbol v t nt success b :
  (ImbalanceMonitor.alert_gate threshold m symbol v t nt success).1
  = ImbalanceMonitor.Alerted b →
  (TelegramNotifier.send_notification
     (ImbalanceMonitor.telegram_notifier m) symbol v nt success).1 = b
  ∧ ImbalanceMonitor.alert_gate threshold m symbol v t nt success
    = (if b
       then (ImbalanceMonitor.Alerted true,
             ImbalanceMonitor.mk
               (TelegramNotifier.send_notification
                  (ImbalanceMonitor.telegram_notifier m) symbol v nt success).2
               (<[symbol := v]> (ImbalanceMonitor.last_imbalance_ratios m))
               (<[symbol := t]> (ImbalanceMonitor.last_notification_time m)))
       else (ImbalanceMonitor.Alerted false,
             ImbalanceMonitor.mk
               (TelegramNotifier.send_notification
                  (ImbalanceMonitor.telegram_notifier m) symbol v nt success).2
               (ImbalanceMonitor.last_imbalance_ratios m)
               (ImbalanceMonitor.last_notification_time m))).
Proof.
  unfold ImbalanceMonitor.alert_gate.
  destruct (ImbalanceMonitor.exceeds_threshold threshold v); [| done].
  destruct (_ || _); [| done].
  destruct (TelegramNotifier.send_notification _ _ _ _ _).1 eqn:E; simpl;
    intros [= <-]; done.
Qed.

(** C1: the gate treats the tracked value asymmetrically.  A value with
    [|v| <= |threshold|], and more generally one that does not exceed the
    threshold, becomes the tracked value of the symbol and is suppressed,
    the alert time and the notifier being left alone.  A value that
    exceeds the threshold and is suppressed leaves the whole state, tracked
    value and alert time included, as it was; this is what happens when
    the value lies within [0.0001] of the tracked value and comes less
    than [30.0] seconds after the recorded alert time. *)
Theorem alert_gate_asymmetry m symbol v t nt success :
  (fle (fabs v) (fabs threshold) = true →
     ImbalanceMonitor.exceeds_threshold threshold v = false)
  ∧ (ImbalanceMonitor.exceeds_threshold threshold v = false →
     ImbalanceMonitor.alert_gate threshold m symbol v t nt success
     = (ImbalanceMonitor.Suppressed,
        ImbalanceMonitor.mk (ImbalanceMonitor.telegram_notifier m)
          (<[symbol := v]> (ImbalanceMonitor.last_imbalance_ratios m))
          (ImbalanceMonitor.last_notification_time m)))
  ∧ (ImbalanceMonitor.exceeds_threshold threshold v = true →
     (ImbalanceMonitor.alert_gate threshold m symbol v t nt success).1
     = ImbalanceMonitor.Suppressed →
     (ImbalanceMonitor.alert_gate threshold m symbol v t nt success).2 = m)
  ∧ (ImbalanceMonitor.exceeds_threshold threshold v = true →
     ∀ last_ratio,
       ImbalanceMonitor.last_imbalance_ratios m !! symbol = Some last_ratio →
       fgt (fabs (fsub v last_ratio)) 0.0001 = false →
       flt (fsub t (default zero
                      (ImbalanceMonitor.last_notification_time m !! symbol)))
           ImbalanceMonitor.periodic_notification_interval = true →
       ImbalanceMonitor.alert_gate threshold m symbol v t nt success
       = (ImbalanceMonitor.Suppressed, m)).
Proof.
  split; [| split; [| split]].
  - apply fle_not_fgt.
  - apply gate_under.
  - intros He. unfold ImbalanceMonitor.alert_gate. rewrite He.
    destruct (_ || _); [| done].
    by destruct (TelegramNotifier.send_notification _ _ _ _ _).1.
  - intros He last_ratio Hl Hd Ht.
    apply gate_frozen; [done | | by apply flt_not_fge].
    unfold ImbalanceMonitor.ratio_changed. by rewrite Hl.
Qed.

(** C3: a send that reports [False] advances nothing.
    [send_notification] returns [False] with the notifier unchanged when
    the external send fails, and more generally whenever it returns
    [False]; when the gate called it and got [False], the tracked value,
    the alert time and the notifier are all as they were before the
    call. *)
Theorem failed_send_keeps_state m symbol v t nt success :
  (∀ n, TelegramNotifier.send_notification n symbol v nt false = (false, n))
  ∧ (∀ n, (TelegramNotifier.send_notification n symbol v nt success).1 = false →
       (TelegramNotifier.send_notification n symbol v nt success).2 = n)
  ∧ (∀ b, (ImbalanceMonitor.alert_gate threshold m symbol v t nt success).1
          = ImbalanceMonitor.Alerted b →
       (TelegramNotifier.send_notification
          (ImbalanceMonitor.telegram_notifier m) symbol v nt success).1 = b)
  ∧ ((ImbalanceMonitor.alert_gate threshold m symbol v t nt success).1
     = ImbalanceMonitor.Alerted false →
     (ImbalanceMonitor.alert_gate threshold m symbol v t nt success).2 = m).
Proof.
  split; [| split; [| split]].
  - intros n. rewrite send_notification_try_emit.
    by rewrite andb_false_r.
  - intros n. apply send_notification_false_state.
  - intros b Hb. by apply gate_alerted_inv in Hb as [? _].
  - intros Hb. apply gate_alerted_inv in Hb as [Hs ->]. simpl.
    rewrite (send_notification_false_state _ _ _ _ _ Hs). by destruct m.
Qed.

End Gate.

(** ** A run of the gate *)

Lemma gate_send_decision threshold m symbol v t nt success :
  ImbalanceMonitor.exceeds_threshold threshold v = true →
  ImbalanceMonitor.ratio_changed m symbol v = true →
  ImbalanceMonitor.decision
    (ImbalanceMonitor.alert_gate threshold m symbol v t nt success).1 = Alert.
Proof.
  intros He Hc. rewrite gate_send by (by rewrite ?Hc).
  by destruct (TelegramNotifier.send_notification _ _ _ _ _).1.
Qed.

(** C2: from the initial state and with threshold [0.5], the values
    [0.3, 0.6, 0.6, 0.6, 0.2, 0.55] get the decisions Suppress, Alert,
    Suppress, Suppress, Suppress, Alert, provided the first alert is
    delivered (the cooldown test against time [0] passes and the send
    succeeds) and the two repeats of [0.6] come less than [30.0] seconds
    after it.  The times of the other observations and the fate of the
    last alert do not matter. *)
Theorem run_gate_sequence symbol t1 t2 t3 t4 t5 t6 n1 n2 n3 n4 n5 n6
    s1 s3 s4 s5 s6 :
  flt (fsub n2 zero) TelegramNotifier.notification_cooldown = false →
  fge (fsub t3 t2) ImbalanceMonitor.periodic_notification_interval = false →
  fge (fsub t4 t2) ImbalanceMonitor.periodic_notification_interval = false →
  (ImbalanceMonitor.run_gate 0.5 ImbalanceMonitor.init symbol
     [ImbalanceMonitor.mk_observation 0.3 t1 n1 s1;
      ImbalanceMonitor.mk_observation 0.6 t2 n2 true;
      ImbalanceMonitor.mk_observation 0.6 t3 n3 s3;
      ImbalanceMonitor.mk_observation 0.6 t4 n4 s4;
      ImbalanceMonitor.mk_observation 0.2 t5 n5 s5;
      ImbalanceMonitor.mk_observation 0.55 t6 n6 s6]).1
  = [Suppress; Alert; Suppress; Suppress; Suppress; Alert].
Proof.
  intros Hn Ht3 Ht4.
  cbn [ImbalanceMonitor.run_gate ImbalanceMonitor.o_value
       ImbalanceMonitor.o_current_time ImbalanceMonitor.o_notifier_time
       ImbalanceMonitor.o_success fst snd].
  (* 0.3: under the threshold, becomes the tracked value *)
  rewrite (gate_under 0.5 ImbalanceMonitor.init symbol 0.3) by reflexivity.
  cbn [fst snd ImbalanceMonitor.decision].
  (* 0.6: changed with respect to 0.3, sent and delivered *)
  rewrite (gate_send 0.5 _ symbol 0.6 t2 n2 true); cycle 1.
  { reflexivity. }
  { unfold ImbalanceMonitor.ratio_changed. cbn.
    rewrite lookup_insert_eq. reflexivity. }
  cbn [ImbalanceMonitor.init ImbalanceMonitor.telegram_notifier
       ImbalanceMonitor.last_imbalance_ratios
       ImbalanceMonitor.last_notification_time].
  rewrite send_notification_try_emit.
  assert (TelegramNotifier.try_emit TelegramNotifier.init symbol 0.6 n2 = true)
    as ->.
  { rewrite try_emit_no_delivery by apply lookup_empty. by rewrite Hn. }
  cbn [andb fst snd ImbalanceMonitor.decision ImbalanceMonitor.init
       ImbalanceMonitor.telegram_notifier
       ImbalanceMonitor.last_imbalance_ratios
       ImbalanceMonitor.last_notification_time].
  (* 0.6 twice more: unchanged and not yet due *)
  rewrite (gate_frozen 0.5 _ symbol 0.6 t3); cycle 1.
  { reflexivity. }
  { unfold ImbalanceMonitor.ratio_changed. cbn.
    rewrite lookup_insert_eq. reflexivity. }
  { cbn. rewrite lookup_insert_eq. exact Ht3. }
  cbn [fst snd ImbalanceMonitor.decision].
  rewrite (gate_frozen 0.5 _ symbol 0.6 t4); cycle 1.
  { reflexivity. }
  { unfold ImbalanceMonitor.ratio_changed. cbn.
    rewrite lookup_insert_eq. reflexivity. }
  { cbn. rewrite lookup_insert_eq. exact Ht4. }
  cbn [fst snd ImbalanceMonitor.decision].
  (* 0.2: under the threshold, the tracked value moves down *)
  rewrite (gate_under 0.5 _ symbol 0.2) by reflexivity.
  cbn [fst snd ImbalanceMonitor.decision].
  (* 0.55: changed with respect to 0.2 *)
  rewrite (gate_send_decision 0.5 _ symbol 0.55); [done | reflexivity |].
  unfold ImbalanceMonitor.ratio_changed. cbn.
  rewrite lookup_insert_eq. reflexivity.
Qed.

Lemma run_gate_sequence_witness :
  (ImbalanceMonitor.run_gate 0.5 ImbalanceMonitor.init "BTCUSDT"
     [ImbalanceMonitor.mk_observation 0.3 1000 1000 true;
      ImbalanceMonitor.mk_observation 0.6 1001 1001 true;
      ImbalanceMonitor.mk_observation 0.6 1002 1002 true;
      ImbalanceMonitor.mk_observation 0.6 1003 1003 true;
      ImbalanceMonitor.mk_observation 0.2 1004 1004 true;
      ImbalanceMonitor.mk_observation 0.55 1015 1015 true]).1
  = [Suppress; Alert; Suppress; Suppress; Suppress; Alert].
Proof.
  apply (run_gate_sequence "BTCUSDT" 1000 1001 1002 1003 1004 1015
           1000 1001 1002 1003 1004 1015 true true true true true);
    reflexivity.
Defined.

(** The same run evaluated: both alerts are delivered, and the state at
    the end tracks [0.55] with alert time [1015.0]. *)
Example run_gate_sample_state :
  let r := ImbalanceMonitor.run_gate 0.5 ImbalanceMonitor.init "BTCUSDT"
     [ImbalanceMonitor.mk_observation 0.3 1000 1000 true;
      ImbalanceMonitor.mk_observation 0.6 1001 1001 true;
      ImbalanceMonitor.mk_observation 0.6 1002 1002 true;
      ImbalanceMonitor.mk_observation 0.6 1003 1003 true;
      ImbalanceMonitor.mk_observation 0.2 1004 1004 true;
      ImbalanceMonitor.mk_observation 0.55 1015 1015 true] in
  r.1 = [Suppress; Alert; Suppress; Suppress; Suppress; Alert]
  ∧ ImbalanceMonitor.last_imbalance_ratios r.2 !! "BTCUSDT" = Some 0.55%float
  ∧ ImbalanceMonitor.last_notification_time r.2 !! "BTCUSDT" = Some 1015%float
  ∧ TelegramNotifier.last_notification_value
      (ImbalanceMonitor.telegram_notifier r.2) !! "BTCUSDT" = Some 0.55%float.
Proof. vm_compute. split; [| split; [| split]]; reflexivity. Qed.

(** ** The handler end to end *)

(** A book with all its volume on the bid side of the first level gives
    the ratio [(200 - 100) / 300], under the threshold [0.5]: the handler
    reaches the gate, suppresses and tracks the value.  A snapshot with an
    empty side never reaches the gate. *)
Example handle_orderbook_update_samples :
  let r := ImbalanceMonitor._handle_orderbook_update 0.5 sample_float fsum
             ImbalanceMonitor.init
             (mk_orderbook_data "BTCUSDT" [("100", "2")] [("100", "1")])
             1000 1000 true in
  r.1 = Some ImbalanceMonitor.Suppressed
  ∧ ImbalanceMonitor.last_imbalance_ratios r.2 !! "BTCUSDT"
    = Some (fdiv 100 300)
  ∧ ImbalanceMonitor._handle_orderbook_update 0.5 sample_float fsum
      ImbalanceMonitor.init (mk_orderbook_data "BTCUSDT" [] [("100", "1")])
      1000 1000 true
    = (None, ImbalanceMonitor.init).
Proof. vm_compute. split; [| split]; reflexivity. Qed.

(** * Further properties of the code *)

(** ** Price dictionaries under a delta *)

Lemma dict_get_set_ne d k v k' :
  feq k k' = false → dict_get (dict_set d k v) k' = dict_get d k'.
Proof.
  intros Hne. induction d as [|[k2 v2] d IH]; simpl.
  - by rewrite Hne.
  - destruct (feq k2 k) eqn:E; simpl.
    + destruct (feq k2 k') eqn:E'; [| done].
      assert (feq k k' = true) as Hc
        by (eapply feq_trans; [by apply feq_sym | exact E']).
      congruence.
    + by destruct (feq k2 k').
Qed.

Lemma dict_get_pop_ne d k k' :
  feq k k' = false → dict_get (dict_pop d k) k' = dict_get d k'.
Proof.
  intros Hne. induction d as [|[k2 v2] d IH]; simpl; [done |].
  destruct (feq k2 k) eqn:E; simpl.
  - destruct (feq k2 k') eqn:E'; [| done].
    assert (feq k k' = true) as Hc
      by (eapply feq_trans; [by apply feq_sym | exact E']).
    congruence.
  - by destruct (feq k2 k').
Qed.

Section StoreFrame.

Context (py_float : string → option float).

Lemma update_entry_get_ne d e k :
  (∀ p, py_float e.1 = Some p → feq p k = false) →
  dict_get (update_entry py_float d e) k = dict_get d k.
Proof.
  intros He. unfold update_entry.
  destruct (py_float e.1) as [p|]; [| done].
  destruct (py_float e.2) as [q|]; [| done].
  destruct (feq q zero);
    [apply dict_get_pop_ne | apply dict_get_set_ne]; auto.
Qed.

(** X1: a delta touches only the prices it names: a price that is [!=]
    to the price of every entry of the delta has the same quantity, or
    the same absence, before and after. *)
Theorem update_side_other_prices d entries k :
  Forall (λ e : level, ∀ p, py_float e.1 = Some p → feq p k = false) entries →
  dict_get (update_side py_float d entries) k = dict_get d k.
Proof.
  revert d. induction entries as [|e l IH]; simpl; [done |].
  intros d H. inversion H; subst.
  rewrite IH by done. by apply update_entry_get_ne.
Qed.

(** X2: a depth message for one symbol leaves the books of all other
    symbols, and the records of the forwarding gate, as they were. *)
Theorem update_orderbook_frame c symbol u other :
  other ≠ symbol →
  orderbooks (_update_orderbook py_float c symbol u) !! other
  = orderbooks c !! other
  ∧ last_sent_data (_update_orderbook py_float c symbol u) = last_sent_data c
  ∧ last_sent_time (_update_orderbook py_float c symbol u) = last_sent_time c.
Proof.
  intros Hne. split; [| done].
  rewrite update_orderbook_books. by rewrite lookup_insert_ne.
Qed.

(** X3: a message with no bid and no ask entry is not fatal and resets
    nothing: an existing book is kept as it is (a missing one is created
    empty), and the symbol is recorded as warned. *)
Theorem update_orderbook_empty_delta c symbol u :
  bids_data_of u = [] → asks_data_of u = [] →
  (∀ ob, orderbooks c !! symbol = Some ob →
     orderbooks (_update_orderbook py_float c symbol u) = orderbooks c)
  ∧ (orderbooks c !! symbol = None →
     orderbooks (_update_orderbook py_float c symbol u)
     = <[symbol := mk_orderbook [] []]> (orderbooks c))
  ∧ symbol ∈ empty_update_warned (_update_orderbook py_float c symbol u).
Proof.
  intros Hb Ha. split; [| split].
  - intros ob Hob. rewrite update_orderbook_books, Hb, Ha, Hob. simpl.
    apply insert_id. by destruct ob.
  - intros Hob. by rewrite update_orderbook_books, Hb, Ha, Hob.
  - unfold _update_orderbook. cbn [empty_update_warned]. rewrite Hb, Ha.
    rewrite bool_decide_eq_true_2 by done. set_solver.
Qed.

Lemma dict_of_levels_none acc levels :
  dict_of_levels py_float acc levels = None
  ↔ Exists (malformed py_float) levels.
Proof.
  revert acc. induction levels as [|e l IH]; intros acc; simpl.
  - split; [done | by inversion 1].
  - unfold malformed at 1. rewrite Exists_cons.
    destruct (py_float e.1) as [p|]; [| split; [by left; left | done]].
    destruct (py_float e.2) as [q|]; [| split; [by left; right | done]].
    rewrite IH. split; [by right | by intros [[?|?]|?]].
Qed.

(** X4: unlike a delta, the initial snapshot is not forgiving: the
    snapshot step of [start] raises exactly when some level of the
    snapshot, bid or ask, has a price or a quantity that is not a
    number. *)
Theorem start_snapshot_raises c symbol snapshot :
  start_snapshot py_float c symbol (Some snapshot) = None
  ↔ Exists (malformed py_float) (od_bids snapshot ++ od_asks snapshot).
Proof.
  rewrite Exists_app, <- !(dict_of_levels_none []).
  unfold start_snapshot.
  destruct (dict_of_levels py_float [] (od_bids snapshot));
    destruct (dict_of_levels py_float [] (od_asks snapshot));
    split; try done; try (by left); try (by right); by intros [?|?].
Qed.

Lemma dict_of_levels_update_side acc levels d :
  Forall (λ e : level, ∀ q, py_float e.2 = Some q → feq q zero = false)
    levels →
  dict_of_levels py_float acc levels = Some d →
  update_side py_float acc levels = d.
Proof.
  revert acc. induction levels as [|e l IH]; intros acc H; simpl.
  - by intros [= <-].
  - inversion H as [|? ? He Hl]; subst. unfold update_entry.
    destruct (py_float e.1) as [p|]; [| done].
    destruct (py_float e.2) as [q|] eqn:Eq; [| done].
    rewrite (He q eq_refl). by apply IH.
Qed.

(** X5: for a symbol without a book, a snapshot none of whose quantities
    is [== 0] builds the very book that the same levels build when they
    arrive as a depth message. *)
Theorem start_snapshot_as_delta c symbol snapshot c' cb :
  orderbooks c !! symbol = None →
  Forall (λ e : level, ∀ q, py_float e.2 = Some q → feq q zero = false)
    (od_bids snapshot ++ od_asks snapshot) →
  start_snapshot py_float c symbol (Some snapshot) = Some (c', cb) →
  orderbooks c'
  = orderbooks (_update_orderbook py_float c symbol
                  (depth_update (od_bids snapshot) (od_asks snapshot))).
Proof.
  intros Hc Hz. apply Forall_app in Hz as [Hb Ha].
  unfold start_snapshot.
  destruct (dict_of_levels py_float [] (od_bids snapshot)) as [b|] eqn:Eb;
    [| done].
  destruct (dict_of_levels py_float [] (od_asks snapshot)) as [a|] eqn:Ea;
    [| done].
  intros [= <- _].
  rewrite update_orderbook_books, Hc.
  unfold bids_data_of, asks_data_of, depth_update, set_orderbooks. simpl.
  by rewrite (dict_of_levels_update_side _ _ _ Hb Eb),
             (dict_of_levels_update_side _ _ _ Ha Ea).
Qed.

End StoreFrame.

Lemma update_side_other_prices_witness :
  dict_get (update_side sample_float [(100%float, 1%float)]
              [("101", "2"); ("abc", "1")]) 100
  = dict_get [(100%float, 1%float)] 100.
Proof.
  apply (update_side_other_prices sample_float [(100%float, 1%float)]
           [("101", "2"); ("abc", "1")] 100%float).
  repeat constructor; simpl; intros p [= <-]; reflexivity.
Defined.

Lemma update_orderbook_frame_witness :
  orderbooks (_update_orderbook sample_float client_init "BTCUSDT"
                (depth_update [("100", "1")] [("101", "2")])) !! "SOLUSDT"
  = orderbooks client_init !! "SOLUSDT"
  ∧ last_sent_data (_update_orderbook sample_float client_init "BTCUSDT"
                      (depth_update [("100", "1")] [("101", "2")]))
    = last_sent_data client_init
  ∧ last_sent_time (_update_orderbook sample_float client_init "BTCUSDT"
                      (depth_update [("100", "1")] [("101", "2")]))
    = last_sent_time client_init.
Proof.
  apply (update_orderbook_frame sample_float client_init "BTCUSDT"
           (depth_update [("100", "1")] [("101", "2")]) "SOLUSDT").
  discriminate.
Defined.

Lemma update_orderbook_empty_delta_witness :
  (∀ ob, orderbooks client_init !! "BTCUSDT" = Some ob →
     orderbooks (_update_orderbook sample_float client_init "BTCUSDT"
                   (mk_update_data None None None None))
     = orderbooks client_init)
  ∧ (orderbooks client_init !! "BTCUSDT" = None →
     orderbooks (_update_orderbook sample_float client_init "BTCUSDT"
                   (mk_update_data None None None None))
     = <["BTCUSDT" := mk_orderbook [] []]> (orderbooks client_init))
  ∧ "BTCUSDT" ∈ empty_update_warned
      (_update_orderbook sample_float client_init "BTCUSDT"
         (mk_update_data None None None None)).
Proof.
  apply (update_orderbook_empty_delta sample_float client_init "BTCUSDT"
           (mk_update_data None None None None)); reflexivity.
Defined.

Lemma start_snapshot_as_delta_witness :
  orderbooks
    (set_orderbooks client_init
       (<["BTCUSDT" := mk_orderbook [(100%float, 1%float)]
                          [(101%float, 2%float)]]> (orderbooks client_init)))
  = orderbooks (_update_orderbook sample_float client_init "BTCUSDT"
                  (depth_update [("100", "1")] [("101", "2")])).
Proof.
  apply (start_snapshot_as_delta sample_float client_init "BTCUSDT"
           (mk_orderbook_data "BTCUSDT" [("100", "1")] [("101", "2")])
           _ (Some (mk_orderbook_data "BTCUSDT" [("100", "1")] [("101", "2")]))).
  - reflexivity.
  - repeat constructor; simpl; intros q [= <-]; reflexivity.
  - reflexivity.
Defined.

(** ** The forwarding gate over time *)

Lemma should_send_recorded c symbol last_data last_time d t :
  last_sent_data c !! symbol = Some last_data →
  last_sent_time c !! symbol = Some last_time →
  should_send c symbol d t = true
  ↔ take 10 (od_bids last_data) ≠ take 10 (od_bids d)
    ∨ take 10 (od_asks last_data) ≠ take 10 (od_asks d)
    ∨ fge (fsub t last_time) 5 = true.
Proof.
  intros Hd Ht. unfold should_send. rewrite Hd, Ht. simpl.
  destruct (decide (take 10 (od_bids last_data) = take 10 (od_bids d)))
    as [Hb|Hb];
  destruct (decide (take 10 (od_asks last_data) = take 10 (od_asks d)))
    as [Ha|Ha].
  - rewrite !bool_decide_eq_false_2 by (intros ?; done). simpl.
    destruct (fge _ 5); split; try done; [by right; right |].
    intros [?|[?|?]]; done.
  - rewrite bool_decide_eq_false_2 by (intros ?; done).
    rewrite bool_decide_eq_true_2 by done. simpl. split; [auto | done].
  - rewrite bool_decide_eq_true_2 by done. simpl. split; [auto | done].
  - rewrite bool_decide_eq_true_2 by done. simpl. split; [auto | done].
Qed.

(** X6: once a snapshot has been forwarded at time [t], the next one for
    the same symbol is forwarded exactly when its first ten bids or first
    ten asks differ from the forwarded ones or [t' - t >= 5.0]; levels
    beyond the tenth never cause a forward. *)
Theorem forward_gate_after_forward c symbol d t d' t' :
  should_send c symbol d t = true →
  should_send (forward_gate c symbol d t).1 symbol d' t' = true
  ↔ take 10 (od_bids d) ≠ take 10 (od_bids d')
    ∨ take 10 (od_asks d) ≠ take 10 (od_asks d')
    ∨ fge (fsub t' t) 5 = true.
Proof.
  intros H. unfold forward_gate. rewrite H. simpl.
  apply should_send_recorded; simpl; apply lookup_insert_eq.
Qed.

Lemma forward_gate_after_forward_witness :
  should_send
    (forward_gate client_init "BTCUSDT"
       (mk_orderbook_data "BTCUSDT" [("100", "1")] [("101", "2")]) 1000).1
    "BTCUSDT" (mk_orderbook_data "BTCUSDT" [("100", "1")] [("101", "2")]) 1003
  = true
  ↔ take 10 [("100", "1")] ≠ take 10 [("100", "1")]
    ∨ take 10 [("101", "2")] ≠ take 10 [("101", "2")]
    ∨ fge (fsub 1003 1000) 5 = true.
Proof.
  apply (forward_gate_after_forward client_init "BTCUSDT"
           (mk_orderbook_data "BTCUSDT" [("100", "1")] [("101", "2")]) 1000
           (mk_orderbook_data "BTCUSDT" [("100", "1")] [("101", "2")]) 1003).
  reflexivity.
Defined.

(** X7: the gate never touches a book, and what it records for one
    symbol leaves the records of every other symbol alone. *)
Theorem forward_gate_frame c symbol d t other :
  other ≠ symbol →
  orderbooks (forward_gate c symbol d t).1 = orderbooks c
  ∧ empty_update_warned (forward_gate c symbol d t).1 = empty_update_warned c
  ∧ last_sent_data (forward_gate c symbol d t).1 !! other
    = last_sent_data c !! other
  ∧ last_sent_time (forward_gate c symbol d t).1 !! other
    = last_sent_time c !! other.
Proof.
  intros Hne. unfold forward_gate.
  destruct (should_send c symbol d t); simpl; [| done].
  by rewrite !lookup_insert_ne.
Qed.

Lemma forward_gate_frame_witness :
  orderbooks (forward_gate client_init "BTCUSDT"
                (mk_orderbook_data "BTCUSDT" [("100", "1")] [("101", "2")])
                1000).1
  = orderbooks client_init
  ∧ empty_update_warned
      (forward_gate client_init "BTCUSDT"
         (mk_orderbook_data "BTCUSDT" [("100", "1")] [("101", "2")]) 1000).1
    = empty_update_warned client_init
  ∧ last_sent_data
      (forward_gate client_init "BTCUSDT"
         (mk_orderbook_data "BTCUSDT" [("100", "1")] [("101", "2")]) 1000).1
    !! "SOLUSDT"
    = last_sent_data client_init !! "SOLUSDT"
  ∧ last_sent_time
      (forward_gate client_init "BTCUSDT"
         (mk_orderbook_data "BTCUSDT" [("100", "1")] [("101", "2")]) 1000).1
    !! "SOLUSDT"
    = last_sent_time client_init !! "SOLUSDT".
Proof.
  apply (forward_gate_frame client_init "BTCUSDT"
           (mk_orderbook_data "BTCUSDT" [("100", "1")] [("101", "2")]) 1000
           "SOLUSDT").
  discriminate.
Defined.

(** ** The message callback *)

Section OnMessageProperties.

Context (py_float : string → option float).
Context (sorted_desc sorted_asc : fdict → list (float * float)).
Context (py_str : float → string).

(** X8: a payload that does not decode changes nothing and forwards
    nothing; a decoded one always updates the book, whether or not
    anything is forwarded. *)
Theorem on_message_updates_book c symbol data t :
  on_message py_float sorted_desc sorted_asc py_str c symbol None t = (c, None)
  ∧ orderbooks
      (on_message py_float sorted_desc sorted_asc py_str c symbol
         (Some data) t).1
    = orderbooks (_update_orderbook py_float c symbol data).
Proof.
  split; [done |]. unfold on_message.
  destruct (orderbooks (_update_orderbook py_float c symbol data) !! symbol)
    as [ob|]; [| done].
  destruct (bool_decide (0 < length (ob_bids ob))); [| done].
  destruct (take 20 (sorted_desc (ob_bids ob))) as [|b bs]; [done |].
  destruct (take 20 (sorted_asc (ob_asks ob))) as [|a as_]; [done |].
  unfold forward_gate. by destruct (should_send _ _ _ _).
Qed.

(** X9: whatever [on_message] hands to the callback carries the symbol
    of the stream, between one and twenty levels on each side, and, for a
    symbol that is not the empty string, passes [parse_orderbook_data]
    unchanged. *)
Theorem on_message_forwards_wellformed c symbol message t d :
  (on_message py_float sorted_desc sorted_asc py_str c symbol message t).2
  = Some d →
  od_symbol d = symbol
  ∧ 1 ≤ length (od_bids d) ≤ 20
  ∧ 1 ≤ length (od_asks d) ≤ 20
  ∧ (symbol ≠ "" → parse_orderbook_data d = Some d).
Proof.
  unfold on_message. destruct message as [data|]; [| done].
  destruct (orderbooks (_update_orderbook py_float c symbol data) !! symbol)
    as [ob|]; [| done].
  destruct (bool_decide (0 < length (ob_bids ob))); [| done].
  destruct (take 20 (sorted_desc (ob_bids ob))) as [|b bs] eqn:Eb; [done |].
  destruct (take 20 (sorted_asc (ob_asks ob))) as [|a as_] eqn:Ea; [done |].
  unfold forward_gate. destruct (should_send _ _ _ _); [| done].
  simpl. intros [= <-]. simpl.
  assert (length (b :: bs) ≤ 20) as Hb
    by (rewrite <- Eb, length_take; lia).
  assert (length (a :: as_) ≤ 20) as Ha
    by (rewrite <- Ea, length_take; lia).
  unfold format_levels. rewrite !length_map. simpl in *.
  split; [done |]. split; [lia |]. split; [lia |].
  intros Hs. unfold parse_orderbook_data. simpl.
  by rewrite bool_decide_eq_false_2.
Qed.

(** X10: a book that has no bids, or no asks, after the update is never
    forwarded, and the records of the gate stay as they were ([sorted] of
    an empty dictionary being empty). *)
Theorem on_message_one_sided_book c symbol data t ob :
  sorted_asc [] = [] →
  orderbooks (_update_orderbook py_float c symbol data) !! symbol = Some ob →
  ob_bids ob = [] ∨ ob_asks ob = [] →
  on_message py_float sorted_desc sorted_asc py_str c symbol (Some data) t
  = (_update_orderbook py_float c symbol data, None).
Proof.
  intros Hs Hob Hside. unfold on_message. rewrite Hob.
  destruct Hside as [-> | ->]; [done |].
  destruct (bool_decide (0 < length (ob_bids ob))); [| done].
  rewrite Hs. simpl.
  by destruct (take 20 (sorted_desc (ob_bids ob))).
Qed.

End OnMessageProperties.

Lemma on_message_forwards_wellformed_witness :
  od_symbol (mk_orderbook_data "BTCUSDT" [("100.0", "1.0")] [("101.0", "2.0")])
  = "BTCUSDT"
  ∧ 1 ≤ length (od_bids (mk_orderbook_data "BTCUSDT"
                           [("100.0", "1.0")] [("101.0", "2.0")])) ≤ 20
  ∧ 1 ≤ length (od_asks (mk_orderbook_data "BTCUSDT"
                           [("100.0", "1.0")] [("101.0", "2.0")])) ≤ 20
  ∧ ("BTCUSDT" ≠ "" →
     parse_orderbook_data
       (mk_orderbook_data "BTCUSDT" [("100.0", "1.0")] [("101.0", "2.0")])
     = Some (mk_orderbook_data "BTCUSDT"
               [("100.0", "1.0")] [("101.0", "2.0")])).
Proof.
  apply (on_message_forwards_wellformed sample_float (λ d, d) (λ d, d)
           sample_str client_init "BTCUSDT"
           (Some (depth_update [("100", "1")] [("101", "2")])) 1000).
  vm_compute. reflexivity.
Defined.

Lemma on_message_one_sided_book_witness :
  on_message sample_float (λ d, d) (λ d, d) sample_str client_init "BTCUSDT"
    (Some (depth_update [("100", "1")] [])) 1000
  = (_update_orderbook sample_float client_init "BTCUSDT"
       (depth_update [("100", "1")] []), None).
Proof.
  apply (on_message_one_sided_book sample_float (λ d, d) (λ d, d) sample_str
           client_init "BTCUSDT" (depth_update [("100", "1")] []) 1000
           (mk_orderbook [(100%float, 1%float)] [])).
  - reflexivity.
  - vm_compute. reflexivity.
  - right. reflexivity.
Defined.

(** ** The calculator and the handler *)

Section EngineProperties.

Context (py_float : string → option float) (py_sum : list float → float).

Lemma notionals_none levels :
  notionals py_float levels = None ↔ Exists (malformed py_float) levels.
Proof.
  induction levels as [|e l IH]; simpl.
  - split; [done | by inversion 1].
  - unfold malformed at 1. rewrite Exists_cons.
    destruct (py_float e.1) as [p|]; [| split; [by left; left | done]].
    destruct (py_float e.2) as [q|]; [| split; [by left; right | done]].
    destruct (notionals py_float l) as [ns|].
    + split; [done |]. intros [[?|?]|H]; try done. by apply IH in H.
    + split; [| done]. intros _. right. by apply IH.
Qed.

(** X11: the ratio depends on the first [top_n] levels of each side
    only: two books that agree on them get the same result, whatever
    lies deeper, numbers or not. *)
Theorem calculate_imbalance_ratio_top_only bids asks bids' asks' top_n :
  (0 ≤ top_n)%Z →
  take (Z.to_nat top_n) bids = take (Z.to_nat top_n) bids' →
  take (Z.to_nat top_n) asks = take (Z.to_nat top_n) asks' →
  calculate_imbalance_ratio py_float py_sum bids asks top_n
  = calculate_imbalance_ratio py_float py_sum bids' asks' top_n.
Proof.
  intros Hn Hb Ha. unfold calculate_imbalance_ratio.
  rewrite !top_levels_take by done. by rewrite Hb, Ha.
Qed.

(** X12: a level among those read whose price or quantity is not a
    number makes the result [None], whatever the other levels hold. *)
Theorem calculate_imbalance_ratio_malformed bids asks top_n :
  Exists (malformed py_float) (top_levels bids top_n ++ top_levels asks top_n) →
  calculate_imbalance_ratio py_float py_sum bids asks top_n = None.
Proof.
  rewrite Exists_app, <- !notionals_none. unfold calculate_imbalance_ratio.
  intros [-> | H]; [done |].
  destruct (notionals py_float (top_levels bids top_n)); [| done].
  by rewrite H.
Qed.

(** X13: a negative [top_n] does not select the first levels: the test
    [len(bids) >= top_n] holds and the slice drops the last [-top_n]
    levels of the side. *)
Theorem top_levels_negative (l : list level) top_n :
  (top_n < 0)%Z →
  top_levels l top_n = take (length l - Z.to_nat (- top_n)) l
  ∧ length (top_levels l top_n) = length l - Z.to_nat (- top_n).
Proof.
  intros Hn. unfold top_levels, py_slice_to.
  destruct (top_n <=? Z.of_nat (length l))%Z eqn:E; [| lia].
  destruct (top_n <? 0)%Z eqn:E2; [| lia].
  split; [done |]. rewrite length_take. lia.
Qed.

(** X14: [process_orderbook] returns [None] exactly when the symbol is
    empty, a side is empty or the ratio is [None]; otherwise it reports
    the symbol, the ratio of the top levels and the lengths of the whole
    lists, not of the slices. *)
Theorem process_orderbook_spec data top_n :
  (process_orderbook py_float py_sum data top_n = None
   ↔ od_symbol data = "" ∨ od_bids data = [] ∨ od_asks data = []
     ∨ calculate_imbalance_ratio py_float py_sum
         (od_bids data) (od_asks data) top_n = None)
  ∧ (∀ r, process_orderbook py_float py_sum data top_n = Some r →
       r_symbol r = od_symbol data
       ∧ calculate_imbalance_ratio py_float py_sum
           (od_bids data) (od_asks data) top_n = Some (r_imbalance_ratio r)
       ∧ r_bids_count r = length (od_bids data)
       ∧ r_asks_count r = length (od_asks data)).
Proof.
  unfold process_orderbook.
  destruct (decide (od_symbol data = "")) as [Hs|Hs].
  { rewrite (bool_decide_eq_true_2 _ Hs). simpl. split; [| done].
    split; [by left | done]. }
  rewrite (bool_decide_eq_false_2 _ Hs). simpl.
  destruct (decide (od_bids data = [])) as [Hb|Hb].
  { rewrite (bool_decide_eq_true_2 _ Hb). simpl. split; [| done].
    split; [by right; left | done]. }
  rewrite (bool_decide_eq_false_2 _ Hb). simpl.
  destruct (decide (od_asks data = [])) as [Ha|Ha].
  { rewrite (bool_decide_eq_true_2 _ Ha). split; [| done].
    split; [by right; right; left | done]. }
  rewrite (bool_decide_eq_false_2 _ Ha).
  destruct (calculate_imbalance_ratio py_float py_sum _ _ top_n) as [x|].
  - split; [| by intros r [= <-]].
    split; [done |]. intros [?|[?|[?|?]]]; done.
  - split; [| done]. split; [by right; right; right | done].
Qed.

(** X15: the handler returns before the gate exactly when the symbol is
    empty, a side is empty or the ratio over the top ten levels is
    [None], and then the state of the monitor is untouched; otherwise it
    is the gate applied to the symbol and that ratio. *)
Theorem handle_orderbook_update_spec threshold m data t nt success :
  ((ImbalanceMonitor._handle_orderbook_update threshold py_float py_sum
      m data t nt success).1 = None
   ↔ od_symbol data = "" ∨ od_bids data = [] ∨ od_asks data = []
     ∨ calculate_imbalance_ratio py_float py_sum (od_bids data)
         (od_asks data) ImbalanceMonitor.TOP_ORDERS_COUNT = None)
  ∧ ((ImbalanceMonitor._handle_orderbook_update threshold py_float py_sum
        m data t nt success).1 = None →
     (ImbalanceMonitor._handle_orderbook_update threshold py_float py_sum
        m data t nt success).2 = m)
  ∧ (∀ ratio,
       od_symbol data ≠ "" → od_bids data ≠ [] → od_asks data ≠ [] →
       calculate_imbalance_ratio py_float py_sum (od_bids data)
         (od_asks data) ImbalanceMonitor.TOP_ORDERS_COUNT = Some ratio →
       ImbalanceMonitor._handle_orderbook_update threshold py_float py_sum
         m data t nt success
       = (Some (ImbalanceMonitor.alert_gate threshold m (od_symbol data)
                  ratio t nt success).1,
          (ImbalanceMonitor.alert_gate threshold m (od_symbol data)
             ratio t nt success).2)).
Proof.
  unfold ImbalanceMonitor._handle_orderbook_update, parse_orderbook_data,
    process_orderbook.
  destruct (decide (od_symbol data = "")) as [Hs|Hs].
  { rewrite (bool_decide_eq_true_2 _ Hs). simpl.
    split; [split; [by left | done] |]. split; [done |]. by intros. }
  rewrite (bool_decide_eq_false_2 _ Hs). simpl.
  destruct (decide (od_bids data = [])) as [Hb|Hb].
  { rewrite (bool_decide_eq_true_2 _ Hb). simpl.
    split; [split; [by right; left | done] |]. split; [done |]. by intros. }
  rewrite (bool_decide_eq_false_2 _ Hb). simpl.
  destruct (decide (od_asks data = [])) as [Ha|Ha].
  { rewrite (bool_decide_eq_true_2 _ Ha). simpl.
    split; [split; [by right; right; left | done] |].
    split; [done |]. by intros. }
  rewrite (bool_decide_eq_false_2 _ Ha). simpl.
  rewrite (bool_decide_eq_false_2 _ Hs), (bool_decide_eq_false_2 _ Hb),
    (bool_decide_eq_false_2 _ Ha). simpl.
  destruct (calculate_imbalance_ratio py_float py_sum _ _ _) as [x|]; simpl.
  - rewrite (bool_decide_eq_false_2 _ Hs).
    split; [split; [done | intros [?|[?|[?|?]]]; done] |].
    split; [done |]. by intros ratio _ _ _ [= <-].
  - split; [split; [by right; right; right | done] |].
    split; [done |]. by intros.
Qed.

End EngineProperties.

Lemma calculate_imbalance_ratio_top_only_witness :
  calculate_imbalance_ratio sample_float fsum
    [("100", "1"); ("abc", "1")] [("101", "2")] 1
  = calculate_imbalance_ratio sample_float fsum
      [("100", "1")] [("101", "2"); ("100", "1")] 1.
Proof.
  apply (calculate_imbalance_ratio_top_only sample_float fsum
           [("100", "1"); ("abc", "1")] [("101", "2")]
           [("100", "1")] [("101", "2"); ("100", "1")] 1);
    [lia | reflexivity | reflexivity].
Defined.

Lemma calculate_imbalance_ratio_malformed_witness :
  calculate_imbalance_ratio sample_float fsum
    [("100", "1"); ("100", "abc")] [("101", "2")] 10 = None.
Proof.
  apply (calculate_imbalance_ratio_malformed sample_float fsum
           [("100", "1"); ("100", "abc")] [("101", "2")] 10).
  simpl. apply Exists_cons_tl, Exists_cons_hd. right. reflexivity.
Defined.

Lemma top_levels_negative_witness :
  top_levels [("100", "1"); ("101", "2"); ("100", "2")] (-1)
  = take (length [("100", "1"); ("101", "2"); ("100", "2")] - Z.to_nat (- -1))
      [("100", "1"); ("101", "2"); ("100", "2")]
  ∧ length (top_levels [("100", "1"); ("101", "2"); ("100", "2")] (-1))
    = length [("100", "1"); ("101", "2"); ("100", "2")] - Z.to_nat (- -1).
Proof.
  apply (top_levels_negative [("100", "1"); ("101", "2"); ("100", "2")] (-1)).
  lia.
Defined.

(** ** The notifier over time *)

Lemma send_notification_true n symbol v t success :
  (TelegramNotifier.send_notification n symbol v t success).1 = true →
  (TelegramNotifier.send_notification n symbol v t success).2
  = TelegramNotifier.mk
      (<[symbol := t]> (TelegramNotifier.last_notification_time n))
      (<[symbol := v]> (TelegramNotifier.last_notification_value n)).
Proof.
  rewrite send_notification_try_emit.
  by destruct (TelegramNotifier.try_emit n symbol v t && success).
Qed.

(** X16: after a delivery of [v] at time [t], a call for the same symbol
    is refused, with the notifier unchanged and nothing sent, when
    [t' - t < 10] whatever the value, and when the value is within
    [0.0005] of [v] whatever the time. *)
Theorem send_notification_after_delivery n symbol v t success v' t' success' :
  (TelegramNotifier.send_notification n symbol v t success).1 = true →
  flt (fsub t' t) TelegramNotifier.notification_cooldown = true
  ∨ flt (fabs (fsub v' v)) 0.0005 = true →
  TelegramNotifier.send_notification
    (TelegramNotifier.send_notification n symbol v t success).2
    symbol v' t' success'
  = (false, (TelegramNotifier.send_notification n symbol v t success).2).
Proof.
  intros H Hor. rewrite (send_notification_true _ _ _ _ _ H).
  unfold TelegramNotifier.send_notification at 1. simpl.
  rewrite !lookup_insert_eq. simpl.
  destruct (flt (fsub t' t) TelegramNotifier.notification_cooldown) eqn:Ec;
    [done |].
  destruct Hor as [? | ->]; done.
Qed.

Lemma send_notification_after_delivery_witness :
  TelegramNotifier.send_notification
    (TelegramNotifier.send_notification TelegramNotifier.init
       "BTCUSDT" 0.6 1000 true).2
    "BTCUSDT" 0.9 1005 true
  = (false,
     (TelegramNotifier.send_notification TelegramNotifier.init
        "BTCUSDT" 0.6 1000 true).2).
Proof.
  apply (send_notification_after_delivery TelegramNotifier.init
           "BTCUSDT" 0.6 1000 true 0.9 1005 true).
  - reflexivity.
  - left. reflexivity.
Defined.

Lemma send_notification_other n symbol v t success other :
  other ≠ symbol →
  TelegramNotifier.last_notification_time
    (TelegramNotifier.send_notification n symbol v t success).2 !! other
  = TelegramNotifier.last_notification_time n !! other
  ∧ TelegramNotifier.last_notification_value
      (TelegramNotifier.send_notification n symbol v t success).2 !! other
    = TelegramNotifier.last_notification_value n !! other.
Proof.
  intros Hne. rewrite send_notification_try_emit.
  destruct (TelegramNotifier.try_emit n symbol v t && success); simpl;
    [| done].
  by rewrite !lookup_insert_ne.
Qed.

(** X17: a call for one symbol never changes what the notifier holds
    for another symbol. *)
Theorem send_notification_frame n symbol v t success other :
  other ≠ symbol →
  TelegramNotifier.last_notification_time
    (TelegramNotifier.send_notification n symbol v t success).2 !! other
  = TelegramNotifier.last_notification_time n !! other
  ∧ TelegramNotifier.last_notification_value
      (TelegramNotifier.send_notification n symbol v t success).2 !! other
    = TelegramNotifier.last_notification_value n !! other.
Proof. apply send_notification_other. Qed.

Lemma send_notification_frame_witness :
  TelegramNotifier.last_notification_time
    (TelegramNotifier.send_notification TelegramNotifier.init
       "BTCUSDT" 0.6 1000 true).2 !! "SOLUSDT"
  = TelegramNotifier.last_notification_time TelegramNotifier.init !! "SOLUSDT"
  ∧ TelegramNotifier.last_notification_value
      (TelegramNotifier.send_notification TelegramNotifier.init
         "BTCUSDT" 0.6 1000 true).2 !! "SOLUSDT"
    = TelegramNotifier.last_notification_value TelegramNotifier.init
      !! "SOLUSDT".
Proof.
  apply (send_notification_frame TelegramNotifier.init
           "BTCUSDT" 0.6 1000 true "SOLUSDT").
  discriminate.
Defined.

(** ** The alert gate over time *)

Lemma fabs_opp x : fabs (PrimFloat.opp x) = fabs x.
Proof.
  unfold fabs. apply FloatAxioms.Prim2SF_inj.
  rewrite !FloatAxioms.abs_spec, FloatAxioms.opp_spec.
  by destruct (Prim2SF x).
Qed.

Section GateProperties.

Context (threshold : float).

Lemma gate_delivered_lookups m symbol v t nt success :
  (ImbalanceMonitor.alert_gate threshold m symbol v t nt success).1
  = ImbalanceMonitor.Alerted true →
  ImbalanceMonitor.last_imbalance_ratios
    (ImbalanceMonitor.alert_gate threshold m symbol v t nt success).2
    !! symbol = Some v
  ∧ ImbalanceMonitor.last_notification_time
      (ImbalanceMonitor.alert_gate threshold m symbol v t nt success).2
      !! symbol = Some t
  ∧ TelegramNotifier.last_notification_value
      (ImbalanceMonitor.telegram_notifier
         (ImbalanceMonitor.alert_gate threshold m symbol v t nt success).2)
      !! symbol = Some v
  ∧ TelegramNotifier.last_notification_time
      (ImbalanceMonitor.telegram_notifier
         (ImbalanceMonitor.alert_gate threshold m symbol v t nt success).2)
      !! symbol = Some nt.
Proof.
  intros H. apply gate_alerted_inv in H as [Hs ->]. simpl.
  rewrite (send_notification_true _ _ _ _ _ Hs). simpl.
  by rewrite !lookup_insert_eq.
Qed.

(** X18: a delivered alert is recorded in full: the monitor tracks the
    value and the time of the handler's clock, the notifier the value and
    the time of its own clock. *)
Theorem alert_gate_delivered_records m symbol v t nt success :
  (ImbalanceMonitor.alert_gate threshold m symbol v t nt success).1
  = ImbalanceMonitor.Alerted true →
  ImbalanceMonitor.last_imbalance_ratios
    (ImbalanceMonitor.alert_gate threshold m symbol v t nt success).2
    !! symbol = Some v
  ∧ ImbalanceMonitor.last_notification_time
      (ImbalanceMonitor.alert_gate threshold m symbol v t nt success).2
      !! symbol = Some t
  ∧ TelegramNotifier.last_notification_value
      (ImbalanceMonitor.telegram_notifier
         (ImbalanceMonitor.alert_gate threshold m symbol v t nt success).2)
      !! symbol = Some v
  ∧ TelegramNotifier.last_notification_time
      (ImbalanceMonitor.telegram_notifier
         (ImbalanceMonitor.alert_gate threshold m symbol v t nt success).2)
      !! symbol = Some nt.
Proof. apply gate_delivered_lookups. Qed.

(** X19: after a delivered alert for [v] at time [t], a value that
    exceeds the threshold, lies within [0.0001] of [v] and arrives with
    [t' - t < 30] is suppressed, nothing is sent and the state stays as
    the alert left it. *)
Theorem alert_gate_after_delivery m symbol v t nt success v' t' nt' success' :
  (ImbalanceMonitor.alert_gate threshold m symbol v t nt success).1
  = ImbalanceMonitor.Alerted true →
  ImbalanceMonitor.exceeds_threshold threshold v' = true →
  fgt (fabs (fsub v' v)) 0.0001 = false →
  flt (fsub t' t) ImbalanceMonitor.periodic_notification_interval = true →
  ImbalanceMonitor.alert_gate threshold
    (ImbalanceMonitor.alert_gate threshold m symbol v t nt success).2
    symbol v' t' nt' success'
  = (ImbalanceMonitor.Suppressed,
     (ImbalanceMonitor.alert_gate threshold m symbol v t nt success).2).
Proof.
  intros H He Hv Ht.
  destruct (gate_delivered_lookups m symbol v t nt success H)
    as (Hr & Hl & _).
  apply gate_frozen; [done | |].
  - unfold ImbalanceMonitor.ratio_changed. by rewrite Hr.
  - rewrite Hl. simpl. by apply flt_not_fge.
Qed.

(** X20: the gate never changes what is tracked for another symbol, in
    the monitor or in the notifier. *)
Theorem alert_gate_frame m symbol v t nt success other :
  other ≠ symbol →
  ImbalanceMonitor.last_imbalance_ratios
    (ImbalanceMonitor.alert_gate threshold m symbol v t nt success).2
    !! other = ImbalanceMonitor.last_imbalance_ratios m !! other
  ∧ ImbalanceMonitor.last_notification_time
      (ImbalanceMonitor.alert_gate threshold m symbol v t nt success).2
      !! other = ImbalanceMonitor.last_notification_time m !! other
  ∧ TelegramNotifier.last_notification_value
      (ImbalanceMonitor.telegram_notifier
         (ImbalanceMonitor.alert_gate threshold m symbol v t nt success).2)
      !! other
    = TelegramNotifier.last_notification_value
        (ImbalanceMonitor.telegram_notifier m) !! other
  ∧ TelegramNotifier.last_notification_time
      (ImbalanceMonitor.telegram_notifier
         (ImbalanceMonitor.alert_gate threshold m symbol v t nt success).2)
      !! other
    = TelegramNotifier.last_notification_time
        (ImbalanceMonitor.telegram_notifier m) !! other.
Proof.
  intros Hne.
  destruct (send_notification_other
              (ImbalanceMonitor.telegram_notifier m) symbol v nt success
              other Hne) as [Hft Hfv].
  unfold ImbalanceMonitor.alert_gate.
  destruct (ImbalanceMonitor.exceeds_threshold threshold v); simpl.
  - destruct (_ || _); [| done].
    destruct (TelegramNotifier.send_notification _ _ _ _ _).1; simpl;
      rewrite ?lookup_insert_ne by done; done.
  - by rewrite lookup_insert_ne.
Qed.

(** X21: the threshold counts by absolute value: the gate behaves with
    [-threshold] exactly as with [threshold], and a value and its
    opposite exceed the threshold alike. *)
Theorem alert_gate_threshold_sign m symbol v t nt success :
  ImbalanceMonitor.alert_gate (PrimFloat.opp threshold) m symbol v t nt success
  = ImbalanceMonitor.alert_gate threshold m symbol v t nt success
  ∧ ImbalanceMonitor.exceeds_threshold threshold (PrimFloat.opp v)
    = ImbalanceMonitor.exceeds_threshold threshold v.
Proof.
  unfold ImbalanceMonitor.alert_gate, ImbalanceMonitor.exceeds_threshold.
  by rewrite !fabs_opp.
Qed.

(** X22: the alert time of the monitor and the whole notifier change
    only when an alert is delivered: after any other outcome they are
    what they were. *)
Theorem alert_gate_time_only_on_delivery m symbol v t nt success :
  (ImbalanceMonitor.alert_gate threshold m symbol v t nt success).1
  ≠ ImbalanceMonitor.Alerted true →
  ImbalanceMonitor.last_notification_time
    (ImbalanceMonitor.alert_gate threshold m symbol v t nt success).2
  = ImbalanceMonitor.last_notification_time m
  ∧ ImbalanceMonitor.telegram_notifier
      (ImbalanceMonitor.alert_gate threshold m symbol v t nt success).2
    = ImbalanceMonitor.telegram_notifier m.
Proof.
  unfold ImbalanceMonitor.alert_gate.
  destruct (ImbalanceMonitor.exceeds_threshold threshold v); [| done].
  destruct (_ || _); [| done].
  destruct (TelegramNotifier.send_notification _ _ _ _ _).1 eqn:E; [done |].
  intros _. simpl. split; [done |].
  by apply send_notification_false_state.
Qed.

End GateProperties.

Lemma alert_gate_delivered_records_witness :
  ImbalanceMonitor.last_imbalance_ratios
    (ImbalanceMonitor.alert_gate 0.5 ImbalanceMonitor.init
       "BTCUSDT" 0.6 1000 1001 true).2 !! "BTCUSDT" = Some 0.6%float
  ∧ ImbalanceMonitor.last_notification_time
      (ImbalanceMonitor.alert_gate 0.5 ImbalanceMonitor.init
         "BTCUSDT" 0.6 1000 1001 true).2 !! "BTCUSDT" = Some 1000%float
  ∧ TelegramNotifier.last_notification_value
      (ImbalanceMonitor.telegram_notifier
         (ImbalanceMonitor.alert_gate 0.5 ImbalanceMonitor.init
            "BTCUSDT" 0.6 1000 1001 true).2) !! "BTCUSDT" = Some 0.6%float
  ∧ TelegramNotifier.last_notification_time
      (ImbalanceMonitor.telegram_notifier
         (ImbalanceMonitor.alert_gate 0.5 ImbalanceMonitor.init
            "BTCUSDT" 0.6 1000 1001 true).2) !! "BTCUSDT" = Some 1001%float.
Proof.
  apply (alert_gate_delivered_records 0.5 ImbalanceMonitor.init
           "BTCUSDT" 0.6 1000 1001 true).
  reflexivity.
Defined.

Lemma alert_gate_after_delivery_witness :
  ImbalanceMonitor.alert_gate 0.5
    (ImbalanceMonitor.alert_gate 0.5 ImbalanceMonitor.init
       "BTCUSDT" 0.6 1000 1001 true).2
    "BTCUSDT" 0.60005 1020 1021 true
  = (ImbalanceMonitor.Suppressed,
     (ImbalanceMonitor.alert_gate 0.5 ImbalanceMonitor.init
        "BTCUSDT" 0.6 1000 1001 true).2).
Proof.
  apply (alert_gate_after_delivery 0.5 ImbalanceMonitor.init
           "BTCUSDT" 0.6 1000 1001 true 0.60005 1020 1021 true);
    reflexivity.
Defined.

Lemma alert_gate_frame_witness :
  ImbalanceMonitor.last_imbalance_ratios
    (ImbalanceMonitor.alert_gate 0.5 ImbalanceMonitor.init
       "BTCUSDT" 0.6 1000 1001 true).2 !! "SOLUSDT"
  = ImbalanceMonitor.last_imbalance_ratios ImbalanceMonitor.init !! "SOLUSDT"
  ∧ ImbalanceMonitor.last_notification_time
      (ImbalanceMonitor.alert_gate 0.5 ImbalanceMonitor.init
         "BTCUSDT" 0.6 1000 1001 true).2 !! "SOLUSDT"
    = ImbalanceMonitor.last_notification_time ImbalanceMonitor.init
      !! "SOLUSDT"
  ∧ TelegramNotifier.last_notification_value
      (ImbalanceMonitor.telegram_notifier
         (ImbalanceMonitor.alert_gate 0.5 ImbalanceMonitor.init
            "BTCUSDT" 0.6 1000 1001 true).2) !! "SOLUSDT"
    = TelegramNotifier.last_notification_value
        (ImbalanceMonitor.telegram_notifier ImbalanceMonitor.init)
      !! "SOLUSDT"
  ∧ TelegramNotifier.last_notification_time
      (ImbalanceMonitor.telegram_notifier
         (ImbalanceMonitor.alert_gate 0.5 ImbalanceMonitor.init
            "BTCUSDT" 0.6 1000 1001 true).2) !! "SOLUSDT"
    = TelegramNotifier.last_notification_time
        (ImbalanceMonitor.telegram_notifier ImbalanceMonitor.init)
      !! "SOLUSDT".
Proof.
  apply (alert_gate_frame 0.5 ImbalanceMonitor.init
           "BTCUSDT" 0.6 1000 1001 true "SOLUSDT").
  discriminate.
Defined.

Lemma alert_gate_time_only_on_delivery_witness :
  ImbalanceMonitor.last_notification_time
    (ImbalanceMonitor.alert_gate 0.5 ImbalanceMonitor.init
       "BTCUSDT" 0.6 1000 1001 false).2
  = ImbalanceMonitor.last_notification_time ImbalanceMonitor.init
  ∧ ImbalanceMonitor.telegram_notifier
      (ImbalanceMonitor.alert_gate 0.5 ImbalanceMonitor.init
         "BTCUSDT" 0.6 1000 1001 false).2
    = ImbalanceMonitor.telegram_notifier ImbalanceMonitor.init.
Proof.
  apply (alert_gate_time_only_on_delivery 0.5 ImbalanceMonitor.init
           "BTCUSDT" 0.6 1000 1001 false).
  discriminate.
Defined.

(** ** The throttle on the wall clock *)

Lemma fsub_zero x : fsub x zero = x.
Proof.
  unfold fsub, zero. apply FloatAxioms.Prim2SF_inj.
  rewrite FloatAxioms.sub_spec.
  change (Prim2SF 0) with (S754_zero false).
  unfold SF64sub, SFsub. by destruct (Prim2SF x) as [[]|[]| |].
Qed.

Lemma fge_not_flt a b : fge a b = true → flt a b = false.
Proof. exact (fle_not_fgt b a). Qed.

(** C4: [now] is a reading of [time.time()], seconds since the epoch,
    hence at least [10.0].  The guards refuse when
    [now - last_time < 10.0], the time of a symbol without delivery being
    read as [0]; they refuse when a delivered value exists within [0.0005]
    of the new one; otherwise they let the call through, and in
    particular they do when nothing was delivered for the symbol.  The
    two dictionaries are written only when the guards passed and the send
    succeeded, and then record [now] and the value. *)
Theorem try_emit_on_wall_clock n symbol v now success :
  fge now TelegramNotifier.notification_cooldown = true →
  (flt (fsub now (default zero
                    (TelegramNotifier.last_notification_time n !! symbol)))
       TelegramNotifier.notification_cooldown = true →
     TelegramNotifier.try_emit n symbol v now = false)
  ∧ (∀ lv, TelegramNotifier.last_notification_value n !! symbol = Some lv →
       flt (fabs (fsub v lv)) 0.0005 = true →
       TelegramNotifier.try_emit n symbol v now = false)
  ∧ (flt (fsub now (default zero
                      (TelegramNotifier.last_notification_time n !! symbol)))
         TelegramNotifier.notification_cooldown = false →
     (∀ lv, TelegramNotifier.last_notification_value n !! symbol = Some lv →
        flt (fabs (fsub v lv)) 0.0005 = false) →
     TelegramNotifier.try_emit n symbol v now = true)
  ∧ (TelegramNotifier.last_notification_time n !! symbol = None →
     TelegramNotifier.last_notification_value n !! symbol = None →
     TelegramNotifier.try_emit n symbol v now = true)
  ∧ TelegramNotifier.send_notification n symbol v now success
    = (if TelegramNotifier.try_emit n symbol v now && success
       then (true,
             TelegramNotifier.mk
               (<[symbol := now]> (TelegramNotifier.last_notification_time n))
               (<[symbol := v]> (TelegramNotifier.last_notification_value n)))
       else (false, n)).
Proof.
  intros Hclock. split; [| split; [| split; [| split]]].
  - intros H. unfold TelegramNotifier.try_emit. by rewrite H.
  - intros lv Hl Hv. unfold TelegramNotifier.try_emit. rewrite Hl, Hv.
    by destruct (flt _ TelegramNotifier.notification_cooldown).
  - intros Ht Hv. unfold TelegramNotifier.try_emit. rewrite Ht.
    destruct (TelegramNotifier.last_notification_value n !! symbol) as [lv|];
      [| done].
    by rewrite (Hv lv).
  - intros Ht Hv. rewrite (try_emit_no_delivery _ _ _ _ Ht Hv).
    by rewrite fsub_zero, (fge_not_flt _ _ Hclock).
  - apply send_notification_try_emit.
Qed.

Lemma try_emit_on_wall_clock_witness :
  TelegramNotifier.try_emit TelegramNotifier.init "BTCUSDT" 0.6 1000 = true
  ∧ TelegramNotifier.send_notification TelegramNotifier.init
      "BTCUSDT" 0.6 1000 true
    = (true,
       TelegramNotifier.mk
         (<["BTCUSDT" := 1000%float]>
            (TelegramNotifier.last_notification_time TelegramNotifier.init))
         (<["BTCUSDT" := 0.6%float]>
            (TelegramNotifier.last_notification_value TelegramNotifier.init))).
Proof.
  destruct (try_emit_on_wall_clock TelegramNotifier.init "BTCUSDT"
              0.6 1000 true eq_refl) as (_ & _ & _ & Hfirst & Hsend).
  split; [apply Hfirst; reflexivity |].
  rewrite Hsend. rewrite Hfirst by reflexivity. reflexivity.
Defined.

(** ** Stored quantities over snapshots and deltas *)

Section StoredQuantities.

Context (py_float : string → option float).

Lemma dict_of_levels_values (P : float → Prop) acc levels d :
  Forall (λ e : level, ∀ q, py_float e.2 = Some q → P q) levels →
  Forall P (dict_values acc) →
  dict_of_levels py_float acc levels = Some d →
  Forall P (dict_values d).
Proof.
  revert acc. induction levels as [|e l IH]; intros acc Hl Hacc; simpl.
  - by intros [= <-].
  - inversion Hl as [|? ? He Hl']; subst.
    destruct (py_float e.1) as [p|]; [| done].
    destruct (py_float e.2) as [q|] eqn:Eq; [| done].
    apply IH; [done |]. apply dict_values_set; auto.
Qed.

Lemma reachable_by_stored (P : float → Prop) (Qs Qd : level → Prop) c :
  (∀ e, Qs e → ∀ q, py_float e.2 = Some q → P q) →
  (∀ e, Qd e → ∀ q, py_float e.2 = Some q → feq q zero = false → P q) →
  reachable_by py_float Qs Qd c →
  stored_quantities P c.
Proof.
  intros HQs HQd.
  induction 1 as [|c symbol snapshot c' cb Hr IH Hsn Hs|c symbol u Hr IH Hu].
  - apply stored_quantities_init.
  - unfold start_snapshot in Hs. destruct snapshot as [sn|].
    + specialize (Hsn sn eq_refl). apply Forall_app in Hsn as [Hb Ha].
      destruct (dict_of_levels py_float [] (od_bids sn)) as [b|] eqn:Eb;
        [| done].
      destruct (dict_of_levels py_float [] (od_asks sn)) as [a|] eqn:Ea;
        [| done].
      injection Hs as <- _. intros s ob. simpl.
      destruct (decide (symbol = s)) as [->|Hne].
      * rewrite lookup_insert_eq. intros [= <-]. simpl.
        split.
        -- apply (dict_of_levels_values P [] (od_bids sn) b);
             [| constructor | done].
           eapply Forall_impl; [exact Hb |]. simpl. auto.
        -- apply (dict_of_levels_values P [] (od_asks sn) a);
             [| constructor | done].
           eapply Forall_impl; [exact Ha |]. simpl. auto.
      * rewrite lookup_insert_ne by done. apply IH.
    + by injection Hs as <- _.
  - apply Forall_app in Hu as [Hb Ha].
    apply update_orderbook_stored; [| | done];
      (eapply Forall_impl; [eassumption |]); simpl; auto.
Qed.

(** X23: in every state reached by snapshots none of whose quantities
    is [== 0] and by depth messages of any content, in any order, no
    stored bid or ask quantity is [== 0]. *)
Theorem stored_quantities_nonzero c symbol ob q :
  reachable_by py_float (nonzero_quantity py_float) (λ _, True) c →
  orderbooks c !! symbol = Some ob →
  q ∈ dict_values (ob_bids ob) ++ dict_values (ob_asks ob) →
  feq q zero = false.
Proof.
  intros Hr Hl Hq.
  assert (stored_quantities (λ q, feq q zero = false) c) as H.
  { eapply reachable_by_stored; [| | exact Hr]; simpl; auto. }
  destruct (H symbol ob Hl) as [Hb Ha].
  apply elem_of_app in Hq as [Hq|Hq];
    [rewrite Forall_forall in Hb | rewrite Forall_forall in Ha]; auto.
Qed.

(** X24: when moreover every quantity that is a number, in snapshots
    and in depth messages, is [>= 0], every stored bid and ask quantity
    is [> 0]. *)
Theorem stored_quantities_positive c symbol ob q :
  reachable_by py_float
    (λ e, nonneg_quantity py_float e ∧ nonzero_quantity py_float e)
    (nonneg_quantity py_float) c →
  orderbooks c !! symbol = Some ob →
  q ∈ dict_values (ob_bids ob) ++ dict_values (ob_asks ob) →
  flt zero q = true.
Proof.
  intros Hr Hl Hq.
  assert (stored_quantities (λ q, flt zero q = true) c) as H.
  { eapply reachable_by_stored; [| | exact Hr]; simpl.
    - intros e [Hn Hz] q' Hq'. apply fge_zero_nonzero_pos; auto.
    - intros e Hn q' Hq' Hz. apply fge_zero_nonzero_pos; auto. }
  destruct (H symbol ob Hl) as [Hb Ha].
  apply elem_of_app in Hq as [Hq|Hq];
    [rewrite Forall_forall in Hb | rewrite Forall_forall in Ha]; auto.
Qed.

End StoredQuantities.

Lemma stored_quantities_nonzero_witness : feq 2 zero = false.
Proof.
  apply (stored_quantities_nonzero sample_float
           (_update_orderbook sample_float
              (set_orderbooks client_init
                 (<["BTCUSDT" := mk_orderbook [(100%float, 1%float)]
                                    [(101%float, 2%float)]]>
                    (orderbooks client_init)))
              "BTCUSDT" (depth_update [("100", "0")] [("101", "2")]))
           "BTCUSDT" (mk_orderbook [] [(101%float, 2%float)]) 2%float).
  - apply reachable_by_update; [| repeat constructor].
    apply (reachable_by_snapshot sample_float _ _ client_init "BTCUSDT"
             (Some (mk_orderbook_data "BTCUSDT"
                      [("100", "1")] [("101", "2")]))
             _ (Some (mk_orderbook_data "BTCUSDT"
                        [("100", "1")] [("101", "2")]))).
    + apply reachable_by_init.
    + intros s [= <-]. simpl.
      repeat constructor; intros q [= <-]; reflexivity.
    + reflexivity.
  - vm_compute. reflexivity.
  - simpl. apply list_elem_of_here.
Defined.

Lemma stored_quantities_positive_witness : flt zero 2 = true.
Proof.
  apply (stored_quantities_positive sample_float
           (_update_orderbook sample_float
              (set_orderbooks client_init
                 (<["BTCUSDT" := mk_orderbook [(100%float, 1%float)]
                                    [(101%float, 2%float)]]>
                    (orderbooks client_init)))
              "BTCUSDT" (depth_update [("100", "0")] [("101", "2")]))
           "BTCUSDT" (mk_orderbook [] [(101%float, 2%float)]) 2%float).
  - apply reachable_by_update.
    + apply (reachable_by_snapshot sample_float _ _ client_init "BTCUSDT"
               (Some (mk_orderbook_data "BTCUSDT"
                        [("100", "1")] [("101", "2")]))
               _ (Some (mk_orderbook_data "BTCUSDT"
                          [("100", "1")] [("101", "2")]))).
      * apply reachable_by_init.
      * intros s [= <-]. simpl.
        repeat constructor; intros q [= <-]; reflexivity.
      * reflexivity.
    + simpl. repeat constructor; intros q [= <-]; reflexivity.
  - vm_compute. reflexivity.
  - simpl. apply list_elem_of_here.
Defined.

(** ** Depth messages before unpacking *)

Section RawMessages.

Context (py_float : string → option float).

Lemma raw_update_side_completes d entries :
  (Raw.update_side py_float d entries).2 = true
  ↔ Forall (λ e : Raw.raw_level, length e = 2) entries.
Proof.
  revert d. induction entries as [|e l IH]; intros d; simpl.
  - split; [constructor | done].
  - destruct e as [|p [|q [|r e]]]; simpl;
      try (split; [done | by inversion 1]).
    rewrite IH. split; [by constructor | by inversion 1].
Qed.

Lemma raw_update_side_steps d entries :
  Forall (λ e : Raw.raw_level, length e = 2) entries →
  Raw.update_side py_float d entries
  = (fold_left
       (λ (d : fdict) (e : Raw.raw_level),
          match e with
          | [price; qty] =>
              match py_float price with
              | None => d
              | Some price_f =>
                  match py_float qty with
                  | None => d
                  | Some qty_f =>
                      if feq qty_f zero then dict_pop d price_f
                      else dict_set d price_f qty_f
                  end
              end
          | _ => d
          end) entries d, true).
Proof.
  revert d. induction entries as [|e l IH]; intros d H; simpl; [done |].
  inversion H as [|? ? He Hl]; subst.
  destruct e as [|p [|q [|r e]]]; simpl in He; try done.
  simpl. by rewrite IH.
Qed.

Lemma raw_update_side_unpacked d entries :
  Forall (λ e : Raw.raw_level, length e = 2) entries →
  Raw.update_side py_float d entries
  = (update_side py_float d (Raw.unpack_all entries), true).
Proof.
  revert d. induction entries as [|e l IH]; intros d H; simpl; [done |].
  inversion H as [|? ? He Hl]; subst.
  destruct e as [|p [|q [|r e]]]; simpl in He; try done.
  simpl. by rewrite IH.
Qed.

Lemma raw_update_side_raises entries :
  (Raw.update_side py_float [] entries).2 = false
  ↔ Exists (λ e : Raw.raw_level, length e ≠ 2) entries.
Proof.
  generalize (@nil (float * float)).
  induction entries as [|e l IH]; intros d; simpl.
  - split; [done | by inversion 1].
  - rewrite Exists_cons.
    destruct e as [|p [|q [|r e]]]; simpl;
      try (split; [by intros _; left | done]).
    rewrite IH. split; [by right | by intros [?|?]].
Qed.

Lemma raw_update_side_raises_any d d' entries :
  (Raw.update_side py_float d entries).2
  = (Raw.update_side py_float d' entries).2.
Proof.
  revert d d'. induction entries as [|e l IH]; intros d d'; simpl; [done |].
  destruct (Raw.unpack e); [apply IH | done].
Qed.

(** C10: on a message whose entries all have the two fields
    [[price, qty]], [_update_orderbook] for a symbol that has no book
    returns, without raising and with no snapshot ever taken for the
    symbol.  The store is then the old one with, for that symbol, the book
    obtained from two empty dictionaries by running the entries in order:
    an entry whose price or quantity is not a number changes nothing, one
    whose quantity is [== 0] pops its price, any other sets its price to
    its quantity. *)
Theorem update_orderbook_absent_symbol_applies c symbol u :
  orderbooks c !! symbol = None →
  Forall (λ e : Raw.raw_level, length e = 2)
    (Raw.bids_data_of u ++ Raw.asks_data_of u) →
  let step :=
    λ (d : fdict) (e : Raw.raw_level),
      match e with
      | [price; qty] =>
          match py_float price with
          | None => d
          | Some price_f =>
              match py_float qty with
              | None => d
              | Some qty_f =>
                  if feq qty_f zero then dict_pop d price_f
                  else dict_set d price_f qty_f
              end
          end
      | _ => d
      end in
  ∃ c',
    Raw._update_orderbook py_float c symbol u = Raw.Returned c'
    ∧ orderbooks c'
      = <[symbol :=
            mk_orderbook (fold_left step (Raw.bids_data_of u) [])
                         (fold_left step (Raw.asks_data_of u) [])]>
          (orderbooks c)
    ∧ last_sent_data c' = last_sent_data c
    ∧ last_sent_time c' = last_sent_time c.
Proof.
  intros Hc Hs step. apply Forall_app in Hs as [Hb Ha].
  unfold Raw._update_orderbook. rewrite Hc, lookup_insert_eq. simpl.
  rewrite (raw_update_side_steps [] _ Hb), (raw_update_side_steps [] _ Ha).
  simpl. eexists. split; [reflexivity |]. simpl.
  by rewrite insert_insert_eq.
Qed.

(** X25: [_update_orderbook] raises exactly when some entry of the
    message does not have exactly two fields, whether or not the symbol
    has a book; on a message where all entries have, it returns the state
    that the entry-wise model computes from the unpacked message. *)
Theorem update_orderbook_raises c symbol u :
  ((∃ c', Raw._update_orderbook py_float c symbol u = Raw.Raised c')
   ↔ Exists (λ e : Raw.raw_level, length e ≠ 2)
       (Raw.bids_data_of u ++ Raw.asks_data_of u))
  ∧ (Forall (λ e : Raw.raw_level, length e = 2)
       (Raw.bids_data_of u ++ Raw.asks_data_of u) →
     Raw._update_orderbook py_float c symbol u
     = Raw.Returned (_update_orderbook py_float c symbol (Raw.unpacked u))).
Proof.
  split.
  - rewrite Exists_app, <- !raw_update_side_raises.
    unfold Raw._update_orderbook.
    set (ob := default _ _).
    rewrite (raw_update_side_raises_any (ob_bids ob) [] (Raw.bids_data_of u)),
            (raw_update_side_raises_any (ob_asks ob) [] (Raw.asks_data_of u)).
    destruct (Raw.update_side py_float [] (Raw.bids_data_of u)).2;
      [| split; eauto].
    destruct (Raw.update_side py_float [] (Raw.asks_data_of u)).2;
      [| split; eauto].
    split; [by intros [c' ?] | by intros [?|?]].
  - intros Hs. apply Forall_app in Hs as [Hb Ha].
    unfold Raw._update_orderbook, _update_orderbook.
    rewrite (raw_update_side_unpacked _ _ Hb),
            (raw_update_side_unpacked _ _ Ha). simpl.
    assert (bids_data_of (Raw.unpacked u)
            = Raw.unpack_all (Raw.bids_data_of u)) as ->.
    { unfold bids_data_of, Raw.bids_data_of, Raw.unpacked. simpl.
      by destruct (Raw.m_bids u), (Raw.m_b u). }
    assert (asks_data_of (Raw.unpacked u)
            = Raw.unpack_all (Raw.asks_data_of u)) as ->.
    { unfold asks_data_of, Raw.asks_data_of, Raw.unpacked. simpl.
      by destruct (Raw.m_asks u), (Raw.m_a u). }
    assert (∀ l : list Raw.raw_level,
              Forall (λ e, length e = 2) l →
              length (Raw.unpack_all l) = length l) as Hlen.
    { induction 1 as [|e l He Hl IH]; [done |].
      destruct e as [|p [|q [|r e]]]; simpl in He; try done.
      simpl. by rewrite <- IH. }
    by rewrite (Hlen _ Hb), (Hlen _ Ha).
Qed.

End RawMessages.

Lemma update_orderbook_absent_symbol_applies_witness :
  ∃ c',
    Raw._update_orderbook sample_float client_init "BTCUSDT"
      (Raw.mk_message
         (Some [["100"; "1"]; ["abc"; "1"]; ["101"; "2"]; ["100"; "0"]]) None
         (Some [["101"; "2"]]) None)
    = Raw.Returned c'
    ∧ orderbooks c'
      = <["BTCUSDT" :=
            mk_orderbook [(101%float, 2%float)] [(101%float, 2%float)]]>
          (orderbooks client_init)
    ∧ last_sent_data c' = last_sent_data client_init
    ∧ last_sent_time c' = last_sent_time client_init.
Proof.
  apply (update_orderbook_absent_symbol_applies sample_float client_init
           "BTCUSDT"
           (Raw.mk_message
              (Some [["100"; "1"]; ["abc"; "1"]; ["101"; "2"]; ["100"; "0"]])
              None (Some [["101"; "2"]]) None)).
  - reflexivity.
  - simpl. repeat constructor.
Defined.

(** An entry with three fields makes the method raise, the entries
    before it having been applied. *)
Example update_orderbook_raises_sample :
  Raw._update_orderbook sample_float client_init "BTCUSDT"
    (Raw.mk_message (Some [["100"; "1"]; ["101"; "2"; "3"]]) None
       (Some [["101"; "2"]]) None)
  = Raw.Raised
      (mk_client (<["BTCUSDT" := mk_orderbook [(100%float, 1%float)] []]> ∅)
         ∅ ∅ ∅).
Proof. vm_compute. reflexivity. Qed.
